(** * Frame partitioning utilities of modin, [modin/core/storage_formats/pandas/utils.py]

    A shallow embedding of the five functions of the module
    ([get_default_chunksize], [compute_chunksize],
    [split_result_of_axis_func_pandas], [length_fn_pandas], [width_fn_pandas])
    and the properties its specification states about them.

    Python integers are unbounded and are modelled by [Z]; the prefix sums
    of a length list are computed by [numpy.cumsum] on 64-bit integers, whose
    wrap-around is written out.  Python objects that the module can mutate
    live in a heap indexed by locations, so that aliasing between the
    caller's list and the list the function works on is visible. *)

From Stdlib Require Import ZArith Lia.
From stdpp Require Import base option list gmap.

Local Open Scope Z_scope.

(** ** Exceptions and outcomes *)

(** The Python exceptions that the module's code can raise.  [SystemError]
    stands for the use of a location that the heap does not hold, which no
    Python program can produce. *)
Inductive exn : Type :=
  | ZeroDivisionError
  | AttributeError
  | TypeError
  | AssertionError
  | UnboundLocalError
  | IndexingError
  | SystemError.

(** The result of evaluating a Python expression: a value or a raised
    exception. *)
Inductive outcome (A : Type) : Type :=
  | Ok (a : A)
  | Raise (e : exn).
Arguments Ok {A} a.
Arguments Raise {A} e.

#[global] Instance outcome_ret : MRet outcome := fun A a => Ok a.
#[global] Instance outcome_bind : MBind outcome := fun A B f m =>
  match m with
  | Ok a => f a
  | Raise e => Raise e
  end.

(** A list comprehension [[f(i) for i in range]]: the elements are evaluated
    in order and the first exception aborts the whole comprehension; an
    empty range evaluates nothing. *)
Fixpoint comprehension {A B : Type} (f : A -> outcome B) (range : list A)
  : outcome (list B) :=
  match range with
  | [] => Ok []
  | i :: rest =>
      x ← f i;
      xs ← comprehension f rest;
      Ok (x :: xs)
  end.

(** ** Integers, sequences and slices *)

(** Python's [len]. *)
Definition len {A : Type} (l : list A) : Z := Z.of_nat (length l).

(** Python's [range(n)]: empty when [n <= 0]. *)
Definition range (n : Z) : list Z := Z.of_nat <$> seq 0 (Z.to_nat n).

(** Python's [max(a, b, c)] on integers. *)
Definition py_max3 (a b c : Z) : Z := Z.max a (Z.max b c).

(** The largest value of [Py_ssize_t], which bounds every [len]. *)
Definition PY_SSIZE_T_MAX : Z := 2 ^ 63 - 1.

(** One bound of a slice [start:stop] on a sequence of length [n]: a negative
    bound counts from the end, and every bound is clamped to [0..n]. *)
Definition slice_bound (n i : Z) : Z :=
  if i <? 0 then Z.max (i + n) 0 else Z.min i n.

(** The slice [l[start:stop]] (step 1): the elements at the positions
    [start <= p < stop] after adjusting the bounds; out-of-range bounds never
    fail. *)
Definition py_slice {A : Type} (start stop : Z) (l : list A) : list A :=
  let a := slice_bound (len l) start in
  let b := slice_bound (len l) stop in
  take (Z.to_nat (b - a)) (drop (Z.to_nat a) l).

(** Two's-complement wrap-around of a 64-bit signed integer. *)
Definition wrap64 (z : Z) : Z := (z + 2 ^ 63) mod 2 ^ 64 - 2 ^ 63.

(** The running sums of [l] started from [acc], on 64-bit integers. *)
Fixpoint cumsum_from (acc : Z) (l : list Z) : list Z :=
  match l with
  | [] => []
  | x :: xs => let s := wrap64 (acc + x) in s :: cumsum_from s xs
  end.

(** [numpy.cumsum] of a list of Python integers that fit in 64 bits (the
    array then has dtype int64, and the sums wrap around silently).  A list
    with an entry outside the 64-bit signed integers makes numpy choose
    another dtype; such lists are outside this definition. *)
Definition np_cumsum (l : list Z) : list Z := cumsum_from 0 l.

(** Indexing [sums[i]] of an array at an index that the caller keeps within
    range. *)
Definition at_index (sums : list Z) (i : Z) : Z := nth (Z.to_nat i) sums 0.

(** ** [get_default_chunksize] *)

(** [length // num_splits if length % num_splits == 0
     else length // num_splits + 1]; Python's [//] and [%] round towards
    minus infinity, as [Z.div] and [Z.modulo] do, and raise on a zero
    divisor. *)
Definition get_default_chunksize (length num_splits : Z) : outcome Z :=
  if num_splits =? 0 then Raise ZeroDivisionError
  else if length mod num_splits =? 0 then Ok (length / num_splits)
  else Ok (length / num_splits + 1).

(** ** Pandas objects *)

Section Pandas.
Context {Label Value : Type}.

(** A [pandas.DataFrame]: the row labels, the column labels and the cells
    row by row. *)
Record DataFrame : Type := mkDataFrame {
  df_index : list Label;
  df_columns : list Label;
  df_data : list (list Value)
}.

(** A [pandas.Series]: the row labels and the values. *)
Record Series : Type := mkSeries {
  s_index : list Label;
  s_values : list Value
}.

(** The Python objects the module's functions are handed. *)
Inductive py_obj : Type :=
  | PyDataFrame (df : DataFrame)
  | PySeries (s : Series)
  | PyList (l : list Z).

(** The invariant of a data frame: one row of cells per row label, one
    cell per column label in every row, and lengths that [len] can
    return. *)
Record wf_frame (df : DataFrame) : Prop := mk_wf_frame {
  wf_rows : length (df_data df) = length (df_index df);
  wf_cols : Forall (fun row => length row = length (df_columns df)) (df_data df);
  wf_index_len : len (df_index df) <= PY_SSIZE_T_MAX;
  wf_columns_len : len (df_columns df) <= PY_SSIZE_T_MAX
}.

(** [isinstance(o, pandas.DataFrame)] and [isinstance(o, pandas.Series)]. *)
Definition is_DataFrame (o : py_obj) : bool :=
  match o with PyDataFrame _ => true | _ => false end.
Definition is_Series (o : py_obj) : bool :=
  match o with PySeries _ => true | _ => false end.

(** The attribute [o.index]. *)
Definition attr_index (o : py_obj) : outcome (list Label) :=
  match o with
  | PyDataFrame df => Ok (df_index df)
  | PySeries s => Ok (s_index s)
  | PyList _ => Raise AttributeError
  end.

(** The attribute [o.columns], which a series does not have (no row label
    of the series is taken to be spelled [columns], which attribute access
    on a series would otherwise find). *)
Definition attr_columns (o : py_obj) : outcome (list Label) :=
  match o with
  | PyDataFrame df => Ok (df_columns df)
  | PySeries _ => Raise AttributeError
  | PyList _ => Raise AttributeError
  end.

(** [o.iloc[start:stop]]: the rows at the positions of the slice. *)
Definition iloc_rows (o : py_obj) (start stop : Z) : outcome py_obj :=
  match o with
  | PyDataFrame df =>
      Ok (PyDataFrame {| df_index := py_slice start stop (df_index df);
                         df_columns := df_columns df;
                         df_data := py_slice start stop (df_data df) |})
  | PySeries s =>
      Ok (PySeries {| s_index := py_slice start stop (s_index s);
                      s_values := py_slice start stop (s_values s) |})
  | PyList _ => Raise AttributeError
  end.

(** [o.iloc[:, start:stop]]: the columns at the positions of the slice. *)
Definition iloc_cols (o : py_obj) (start stop : Z) : outcome py_obj :=
  match o with
  | PyDataFrame df =>
      Ok (PyDataFrame {| df_index := df_index df;
                         df_columns := py_slice start stop (df_columns df);
                         df_data := py_slice start stop <$> df_data df |})
  | PySeries _ => Raise IndexingError
  | PyList _ => Raise AttributeError
  end.

(** ** [length_fn_pandas] and [width_fn_pandas] *)

Definition length_fn_pandas (df : py_obj) : outcome Z :=
  match df with
  | PyDataFrame d =>
      if len (df_index d) >? 0 then Ok (len (df_index d)) else Ok 0
  | _ => Raise AssertionError
  end.

Definition width_fn_pandas (df : py_obj) : outcome Z :=
  match df with
  | PyDataFrame d =>
      if len (df_columns d) >? 0 then Ok (len (df_columns d)) else Ok 0
  | _ => Raise AssertionError
  end.

(** ** [compute_chunksize] *)

(** What [compute_chunksize] returns: an integer when an axis was given, a
    tuple of two otherwise. *)
Inductive chunksize : Type :=
  | Single (c : Z)
  | Both (row_chunksize col_chunksize : Z).

(** [axis == k] for an axis that is an integer or [None]. *)
Definition axis_eq (axis : option Z) (k : Z) : bool :=
  match axis with
  | Some a => a =? k
  | None => false
  end.

(** [axis is None]. *)
Definition is_None {A : Type} (x : option A) : bool :=
  match x with
  | None => true
  | Some _ => false
  end.

Section Config.
(** The value of the configuration [MinPartitionSize], read at every
    call. *)
Variable MinPartitionSize : Z.

Definition compute_chunksize (df : py_obj) (num_splits : Z)
    (default_block_size : option Z) (axis : option Z) : outcome chunksize :=
  let default_block_size :=
    match default_block_size with
    | None => MinPartitionSize
    | Some d => d
    end in
  (* the part after the first [if]; [row_chunksize] is bound only when
     that [if] was entered *)
  let columns_part (row_chunksize : option Z) : outcome chunksize :=
    columns ← attr_columns df;
    col_chunksize ← get_default_chunksize (len columns) num_splits;
    let col_chunksize := py_max3 1 col_chunksize default_block_size in
    if axis_eq axis 1 then Ok (Single col_chunksize)
    else match row_chunksize with
         | Some row_chunksize => Ok (Both row_chunksize col_chunksize)
         | None => Raise UnboundLocalError
         end in
  if axis_eq axis 0 || is_None axis then
    index ← attr_index df;
    row_chunksize ← get_default_chunksize (len index) num_splits;
    let row_chunksize := py_max3 1 row_chunksize default_block_size in
    if axis_eq axis 0 then Ok (Single row_chunksize)
    else columns_part (Some row_chunksize)
  else columns_part None.

(** ** The heap *)

(** Python passes objects by reference.  A location names an object of
    the heap; [M A] is a computation that reads and updates the heap and
    returns an [A] or raises.  The heap reached when an exception is
    raised is kept: updates made before the exception persist. *)
Definition loc : Type := positive.
Abbreviation heap := (gmap loc py_obj).

Definition M (A : Type) : Type := heap -> outcome A * heap.

#[global] Instance M_ret : MRet M := fun A a h => (Ok a, h).
#[global] Instance M_bind : MBind M := fun A B f m h =>
  match m h with
  | (Ok a, h') => f a h'
  | (Raise e, h') => (Raise e, h')
  end.

(** A computation that does not touch the heap. *)
Definition lift {A : Type} (o : outcome A) : M A := fun h => (o, h).

(** The object a variable refers to. *)
Definition deref (r : loc) : M py_obj := fun h =>
  match h !! r with
  | Some o => (Ok o, h)
  | None => (Raise SystemError, h)
  end.

(** [r.insert(i, x)]: on a list, the in-place insertion of [x] before
    position [i] (adjusted like a slice bound).  A data frame has an
    [insert] method of three arguments, a series has none. *)
Definition list_insert (r : loc) (i x : Z) : M unit := fun h =>
  match h !! r with
  | Some (PyList l) =>
      let p := Z.to_nat (slice_bound (len l) i) in
      (Ok (), <[r := PyList (take p l ++ x :: drop p l)]> h)
  | Some (PyDataFrame _) => (Raise TypeError, h)
  | Some (PySeries _) => (Raise AttributeError, h)
  | None => (Raise SystemError, h)
  end.

(** [np.cumsum(r)] for a list [r] of integers. *)
Definition cumsum_of (r : loc) : M (list Z) := fun h =>
  match h !! r with
  | Some (PyList l) => (Ok (np_cumsum l), h)
  | Some _ => (Raise TypeError, h)
  | None => (Raise SystemError, h)
  end.

(** ** [split_result_of_axis_func_pandas] *)

(** The attribute [o.iloc], evaluated before the subscript. *)
Definition attr_iloc (o : py_obj) : outcome unit :=
  match o with
  | PyList _ => Raise AttributeError
  | _ => Ok ()
  end.

(** The bounds [chunksize * i] and [chunksize * (i + 1)] of the [i]-th
    uniform slice.  When [chunksize] is a tuple (axis [None]) the products
    are tuples, which [iloc] rejects as slice bounds. *)
Definition chunk_bounds (c : chunksize) (i : Z) : outcome (Z * Z) :=
  match c with
  | Single c => Ok (c * i, c * (i + 1))
  | Both _ _ => Raise TypeError
  end.

Definition split_result_of_axis_func_pandas (axis : option Z)
    (num_splits : Z) (result : loc) (length_list : option loc)
  : M (list py_obj) :=
  match length_list with
  | Some length_list =>
      list_insert length_list 0 0;;
      sums ← cumsum_of length_list;
      result ← deref result;
      if axis_eq axis 0 || is_Series result then
        lift (comprehension
                (fun i => attr_iloc result;;
                          iloc_rows result (at_index sums i) (at_index sums (i + 1)))
                (range (len sums - 1)))
      else
        lift (comprehension
                (fun i => attr_iloc result;;
                          iloc_cols result (at_index sums i) (at_index sums (i + 1)))
                (range (len sums - 1)))
  | None =>
      result ← deref result;
      if num_splits =? 1 then mret [result]
      else
        (* We do this to restore block partitioning *)
        chunksize ← lift (compute_chunksize result num_splits None axis);
        if axis_eq axis 0 || is_Series result then
          lift (comprehension
                  (fun i => attr_iloc result;;
                            '(start, stop) ← chunk_bounds chunksize i;
                            iloc_rows result start stop)
                  (range num_splits))
        else
          lift (comprehension
                  (fun i => attr_iloc result;;
                            '(start, stop) ← chunk_bounds chunksize i;
                            iloc_cols result start stop)
                  (range num_splits))
  end.
End Config.

End Pandas.

Arguments DataFrame : clear implicits.
Arguments Series : clear implicits.
Arguments py_obj : clear implicits.

(** ** Notions of the specification *)

(** The ceiling of [L / N], written with the floor division of [Z]. *)
Definition ceil_div (L N : Z) : Z := - ((- L) / N).

(** [C] is the smallest integer such that [N] chunks of size [C] cover
    [L]. *)
Definition least_cover (L N C : Z) : Prop :=
  L <= C * N /\ forall C', L <= C' * N -> C <= C'.

(** The effective minimum block size of [compute_chunksize]: the caller's
    override if given, the configuration value otherwise. *)
Definition effective_minimum (MinPartitionSize : Z) (override : option Z) : Z :=
  match override with
  | Some d => d
  | None => MinPartitionSize
  end.

(** The sum of a list of integers. *)
Definition py_sum (l : list Z) : Z := foldr Z.add 0 l.

(** The exact running sums of [l] started from [acc], and the prefix sums of
    a list. *)
Fixpoint running_sums (acc : Z) (l : list Z) : list Z :=
  match l with
  | [] => []
  | x :: xs => (acc + x) :: running_sums (acc + x) xs
  end.

Definition prefix_sums (l : list Z) : list Z := running_sums 0 l.

(** The integers that a 64-bit signed integer holds. *)
Definition int64 (z : Z) : Prop := - 2 ^ 63 <= z < 2 ^ 63.

(** A length list whose entries and prefix sums are 64-bit integers, on
    which [numpy.cumsum] is exact. *)
Definition int64_sums (l : list Z) : Prop :=
  Forall int64 l /\ Forall int64 (prefix_sums (0 :: l)).

Section Tables.
Context {Label Value : Type}.
Implicit Types (df : DataFrame Label Value) (o T : py_obj Label Value).

(** A table: a data frame or a series. *)
Definition is_table o : bool := is_DataFrame o || is_Series o.

(** The partition of [df] that holds the rows [[a, b)], and the one that
    holds the columns [[a, b)]. *)
Definition row_part df (a b : Z) : DataFrame Label Value :=
  {| df_index := py_slice a b (df_index df);
     df_columns := df_columns df;
     df_data := py_slice a b (df_data df) |}.

Definition col_part df (a b : Z) : DataFrame Label Value :=
  {| df_index := df_index df;
     df_columns := py_slice a b (df_columns df);
     df_data := py_slice a b <$> df_data df |}.

(** The half-open slice [[a, b)] of a table along the target axis: the
    rows when the axis is 0 or the table is a series, the columns
    otherwise. *)
Definition table_slice (axis : option Z) T (a b : Z) : py_obj Label Value :=
  match T with
  | PyDataFrame df =>
      if axis_eq axis 0 then PyDataFrame (row_part df a b)
      else PyDataFrame (col_part df a b)
  | PySeries s =>
      PySeries {| s_index := py_slice a b (s_index s);
                  s_values := py_slice a b (s_values s) |}
  | PyList l => PyList l
  end.

(** The length of a table along the target axis. *)
Definition table_extent (axis : option Z) T : Z :=
  match T with
  | PyDataFrame df =>
      if axis_eq axis 0 then len (df_index df) else len (df_columns df)
  | PySeries s => len (s_index s)
  | PyList l => len l
  end.

(** The length of a data frame along an axis. *)
Definition axis_length (axis : Z) df : Z :=
  if axis =? 0 then len (df_index df) else len (df_columns df).

(** Concatenation of two data frames along the rows: the second frame's
    rows follow the first's, under the first's column labels. *)
Definition append_rows df1 df2 : DataFrame Label Value :=
  {| df_index := df_index df1 ++ df_index df2;
     df_columns := df_columns df1;
     df_data := df_data df1 ++ df_data df2 |}.

(** Concatenation of two data frames along the columns: in every row the
    second frame's cells follow the first's, under the first's row
    labels. *)
Definition append_cols df1 df2 : DataFrame Label Value :=
  {| df_index := df_index df1;
     df_columns := df_columns df1 ++ df_columns df2;
     df_data := zip_with app (df_data df1) (df_data df2) |}.

(** Concatenation in order of a non-empty sequence of frames. *)
Fixpoint concat_frames (append : DataFrame Label Value -> DataFrame Label Value ->
                                 DataFrame Label Value)
    df (rest : list (DataFrame Label Value)) : DataFrame Label Value :=
  match rest with
  | [] => df
  | df' :: rest' => append df (concat_frames append df' rest')
  end.

(** The data frame a partition holds. *)
Definition as_frame o : option (DataFrame Label Value) :=
  match o with
  | PyDataFrame df => Some df
  | _ => None
  end.

(** Concatenation of a partition sequence in order along an axis, as
    [pandas.concat] does it for frames that agree off the axis; there is
    nothing to concatenate in an empty sequence. *)
Definition concat (axis : Z) (parts : list (py_obj Label Value))
  : option (DataFrame Label Value) :=
  frames ← mapM as_frame parts;
  match frames with
  | [] => None
  | df :: rest =>
      Some (concat_frames (if axis =? 0 then append_rows else append_cols) df rest)
  end.
End Tables.

(** ** Further notions: series and measured partitions *)

Section SeriesNotions.
Context {Label Value : Type}.
Implicit Types (s : Series Label Value) (o : py_obj Label Value).

(** The invariant of a series: one value per row label, and a length that
    [len] can return. *)
Record wf_series s : Prop := mk_wf_series {
  wf_values : length (s_values s) = length (s_index s);
  wf_series_len : len (s_index s) <= PY_SSIZE_T_MAX
}.

(** The series a partition holds. *)
Definition as_series o : option (Series Label Value) :=
  match o with
  | PySeries s => Some s
  | _ => None
  end.

(** Concatenation in order of a sequence of series: the labels and the
    values of each part follow those of the parts before it; there is
    nothing to concatenate in an empty sequence. *)
Definition concat_series (parts : list (py_obj Label Value))
  : option (Series Label Value) :=
  series ← mapM as_series parts;
  match series with
  | [] => None
  | _ :: _ => Some {| s_index := mjoin (s_index <$> series);
                      s_values := mjoin (s_values <$> series) |}
  end.

(** The dimension probe that measures along the split axis, and the one that
    measures across it. *)
Definition probe_along (axis : Z) : py_obj Label Value -> outcome Z :=
  if axis =? 0 then length_fn_pandas else width_fn_pandas.

Definition probe_across (axis : Z) : py_obj Label Value -> outcome Z :=
  if axis =? 0 then width_fn_pandas else length_fn_pandas.
End SeriesNotions.

(** ** Example inputs *)

(** A frame of five rows and two columns, a series of three values and a
    frame with a column and no rows. *)
Definition frame5 : DataFrame Z Z :=
  mkDataFrame [0; 1; 2; 3; 4] [10; 11] [[1; 2]; [3; 4]; [5; 6]; [7; 8]; [9; 10]].

Definition series3 : Series Z Z := mkSeries [0; 1; 2] [5; 6; 7].

Definition empty_frame : DataFrame Z Z := mkDataFrame [] [10] [].

(** A heap that holds them at the locations 1, 3 and 4, the length list
    [[2; 2; 1]] at 2 and an empty length list at 5. *)
Definition example_heap : gmap loc (py_obj Z Z) :=
  <[1%positive := PyDataFrame frame5]>
    (<[2%positive := PyList [2; 2; 1]]>
       (<[3%positive := PySeries series3]>
          (<[4%positive := PyDataFrame empty_frame]>
             (<[5%positive := PyList []]> ∅)))).

(** The same heap with, at the location 6, a length list whose entries fit
    in 64 bits and whose sum does not. *)
Definition overflow_heap : gmap loc (py_obj Z Z) :=
  <[6%positive := PyList [1; 2 ^ 63 - 1]]> example_heap.

(** The value of [MinPartitionSize] that modin ships. *)
Definition default_MinPartitionSize : Z := 32.

(** * Properties *)

(** ** The chunksize calculator *)

Lemma ceil_div_bounds (L N : Z) :
  0 < N -> (ceil_div L N - 1) * N < L <= ceil_div L N * N.
Proof.
  intros HN. unfold ceil_div.
  pose proof (Z.div_mod (- L) N ltac:(lia)) as Hdm.
  pose proof (Z.mod_pos_bound (- L) N HN) as Hm.
  nia.
Qed.

Lemma get_default_chunksize_ceil (L N : Z) :
  0 < N -> get_default_chunksize L N = Ok (ceil_div L N).
Proof.
  intros HN. unfold get_default_chunksize.
  destruct (Z.eqb_spec N 0) as [->|_]; [lia|].
  pose proof (Z.div_mod L N ltac:(lia)) as Hdm.
  pose proof (Z.mod_pos_bound L N HN) as Hm.
  pose proof (ceil_div_bounds L N HN) as Hc.
  destruct (Z.eqb_spec (L mod N) 0) as [H0|H0]; f_equal; nia.
Qed.

Lemma ceil_div_least (L N : Z) : 0 < N -> least_cover L N (ceil_div L N).
Proof.
  intros HN. pose proof (ceil_div_bounds L N HN) as Hc.
  split; [lia|]. intros C' HC'. nia.
Qed.

(** C5 (as amended): for every non-negative [L] and positive [N],
    [C = get_default_chunksize L N] satisfies [C * N >= L] and
    [(C - 1) * N < L]. *)
Theorem get_default_chunksize_ceiling_law (L N : Z) :
  0 <= L -> 1 <= N ->
  exists C, get_default_chunksize L N = Ok C /\ C * N >= L /\ (C - 1) * N < L.
Proof.
  intros _ HN. exists (ceil_div L N).
  pose proof (ceil_div_bounds L N ltac:(lia)).
  split; [apply get_default_chunksize_ceil; lia | lia].
Qed.

Lemma get_default_chunksize_ceiling_law_witness :
  exists C, get_default_chunksize 10 3 = Ok C /\ C * 3 >= 10 /\ (C - 1) * 3 < 10.
Proof. apply (get_default_chunksize_ceiling_law 10 3); lia. Defined.

(** C5 (as stated) fails: one unit split three ways has chunksize 1, and
    [1 * (3 - 1) < 1] does not hold. *)
Lemma get_default_chunksize_law_as_stated_fails :
  exists C, get_default_chunksize 1 3 = Ok C /\ ~ (C * 3 >= 1 /\ C * (3 - 1) < 1).
Proof. exists 1. split; [reflexivity | lia]. Qed.

(** C6: for every non-negative [L] and positive [N],
    [get_default_chunksize L N] is the ceiling of [L / N], the smallest [C]
    such that [N] chunks of size [C] cover [L]. *)
Theorem get_default_chunksize_is_ceiling (L N : Z) :
  0 <= L -> 1 <= N ->
  get_default_chunksize L N = Ok (ceil_div L N) /\ least_cover L N (ceil_div L N).
Proof.
  intros _ HN. split.
  - apply get_default_chunksize_ceil; lia.
  - apply ceil_div_least; lia.
Qed.

Lemma get_default_chunksize_is_ceiling_witness :
  get_default_chunksize 10 3 = Ok (ceil_div 10 3) /\ least_cover 10 3 (ceil_div 10 3).
Proof. apply (get_default_chunksize_is_ceiling 10 3); lia. Defined.

Section CalculatorProperties.
Context {Label Value : Type}.
Implicit Types (df : DataFrame Label Value) (o : py_obj Label Value).

Lemma compute_chunksize_frame (MinPartitionSize : Z) df (N : Z)
    (override : option Z) :
  0 < N ->
  let m := effective_minimum MinPartitionSize override in
  let rows := py_max3 1 (ceil_div (len (df_index df)) N) m in
  let cols := py_max3 1 (ceil_div (len (df_columns df)) N) m in
  compute_chunksize MinPartitionSize (PyDataFrame df) N override (Some 0)
    = Ok (Single rows) /\
  compute_chunksize MinPartitionSize (PyDataFrame df) N override (Some 1)
    = Ok (Single cols) /\
  compute_chunksize MinPartitionSize (PyDataFrame df) N override None
    = Ok (Both rows cols).
Proof.
  intros HN m rows cols. unfold compute_chunksize. cbn.
  rewrite !get_default_chunksize_ceil by lia. cbn.
  repeat split; destruct override; reflexivity.
Qed.

(** C4: on a data frame and for [N >= 1], [compute_chunksize] returns for
    each requested axis the maximum of 1, the ceiling of the axis length
    over [N] and the effective minimum block size; each returned chunksize
    is at least 1 and at least the effective minimum. *)
Theorem compute_chunksize_floor (MinPartitionSize : Z) df (N : Z)
    (override : option Z) :
  1 <= N ->
  let m := effective_minimum MinPartitionSize override in
  let rows := Z.max 1 (Z.max (ceil_div (len (df_index df)) N) m) in
  let cols := Z.max 1 (Z.max (ceil_div (len (df_columns df)) N) m) in
  compute_chunksize MinPartitionSize (PyDataFrame df) N override (Some 0)
    = Ok (Single rows) /\
  compute_chunksize MinPartitionSize (PyDataFrame df) N override (Some 1)
    = Ok (Single cols) /\
  compute_chunksize MinPartitionSize (PyDataFrame df) N override None
    = Ok (Both rows cols) /\
  1 <= rows /\ m <= rows /\ 1 <= cols /\ m <= cols.
Proof.
  intros HN m rows cols.
  destruct (compute_chunksize_frame MinPartitionSize df N override ltac:(lia))
    as (H0 & H1 & H2).
  repeat split; try assumption; subst rows cols; lia.
Qed.

(** C9: [length_fn_pandas] and [width_fn_pandas] raise an assertion error
    exactly when the input is not a data frame; on a data frame they
    return the row count and the column count, which are non-negative and
    are 0 when the dimension is empty. *)
Theorem dimension_probes :
  (forall o, length_fn_pandas o = Raise AssertionError <-> is_DataFrame o = false) /\
  (forall o, width_fn_pandas o = Raise AssertionError <-> is_DataFrame o = false) /\
  (forall df,
     length_fn_pandas (PyDataFrame df) = Ok (len (df_index df)) /\
     width_fn_pandas (PyDataFrame df) = Ok (len (df_columns df)) /\
     0 <= len (df_index df) /\ 0 <= len (df_columns df)) /\
  (forall (columns : list Label) (data : list (list Value)),
     length_fn_pandas (PyDataFrame (mkDataFrame [] columns data)) = Ok 0) /\
  (forall (index : list Label) (data : list (list Value)),
     width_fn_pandas (PyDataFrame (mkDataFrame index [] data)) = Ok 0).
Proof.
  split; [|split; [|split; [|split]]].
  - intros [d| |]; cbn; [|tauto..].
    destruct (len (df_index d) >? 0); split; discriminate.
  - intros [d| |]; cbn; [|tauto..].
    destruct (len (df_columns d) >? 0); split; discriminate.
  - intros d. cbn. unfold len. repeat split; try lia.
    + destruct (Z.gtb_spec (Z.of_nat (length (df_index d))) 0); f_equal; lia.
    + destruct (Z.gtb_spec (Z.of_nat (length (df_columns d))) 0); f_equal; lia.
  - reflexivity.
  - reflexivity.
Qed.
End CalculatorProperties.

Lemma compute_chunksize_floor_witness :
  compute_chunksize 32 (PyDataFrame (mkDataFrame [0; 1; 2] [7] [[1]; [2]; [3]]))
    2 None (Some 0) = Ok (Single 32).
Proof.
  apply (compute_chunksize_floor 32 (mkDataFrame [0; 1; 2] [7] [[1]; [2]; [3]]) 2 None).
  lia.
Defined.

Lemma dimension_probes_witness :
  length_fn_pandas (PySeries (mkSeries [0; 1] [5; 6])) = Raise AssertionError.
Proof.
  apply (proj1 (@dimension_probes Z Z)). reflexivity.
Defined.

(** ** Slices and running sums *)

Lemma wrap64_int64 (z : Z) : int64 z -> wrap64 z = z.
Proof.
  unfold int64, wrap64. intros Hz.
  rewrite Z.mod_small; lia.
Qed.

Lemma cumsum_from_exact (acc : Z) (l : list Z) :
  Forall int64 (running_sums acc l) -> cumsum_from acc l = running_sums acc l.
Proof.
  revert acc. induction l as [|x xs IH]; intros acc Hr; [reflexivity|].
  cbn in *. inversion Hr as [|? ? Hx Hxs]; subst.
  rewrite wrap64_int64 by assumption. f_equal. apply IH, Hxs.
Qed.

Lemma np_cumsum_exact (l : list Z) :
  Forall int64 (prefix_sums l) -> np_cumsum l = prefix_sums l.
Proof. apply cumsum_from_exact. Qed.

Lemma length_cumsum_from (acc : Z) (l : list Z) :
  length (cumsum_from acc l) = length l.
Proof. revert acc. induction l; intros; cbn; [|rewrite IHl]; reflexivity. Qed.

Lemma range_of_nat (k : nat) : range (Z.of_nat k) = Z.of_nat <$> seq 0 k.
Proof. unfold range. rewrite Nat2Z.id. reflexivity. Qed.

Lemma at_index_of_nat (sums : list Z) (i : nat) :
  at_index sums (Z.of_nat i) = nth i sums 0
  /\ at_index sums (Z.of_nat i + 1) = nth (S i) sums 0.
Proof.
  unfold at_index. rewrite Nat2Z.id.
  replace (Z.to_nat (Z.of_nat i + 1)) with (S i) by lia. split; reflexivity.
Qed.

(** A comprehension whose body never raises is a [map]. *)
Lemma comprehension_ok {A B : Type} (f : A -> outcome B) (g : A -> B) (l : list A) :
  (forall i, f i = Ok (g i)) -> comprehension f l = Ok (g <$> l).
Proof.
  intros Hf. induction l as [|i l IH]; [reflexivity|].
  cbn. rewrite Hf. cbn. rewrite IH. reflexivity.
Qed.

(** With bounds [0 <= a <= b] a slice is the [b - a] elements that follow
    the first [a], whatever the length of the sequence. *)
Lemma py_slice_take_drop {A : Type} (a b : Z) (L : list A) :
  0 <= a <= b ->
  py_slice a b L = take (Z.to_nat (b - a)) (drop (Z.to_nat a) L).
Proof.
  intros Hab. unfold py_slice, slice_bound, len.
  destruct (Z.ltb_spec a 0) as [?|_]; [lia|].
  destruct (Z.ltb_spec b 0) as [?|_]; [lia|].
  destruct (Z.le_gt_cases a (Z.of_nat (length L))) as [Ha|Ha].
  - rewrite (Z.min_l a) by lia.
    destruct (Z.le_gt_cases b (Z.of_nat (length L))) as [Hb|Hb].
    + rewrite (Z.min_l b) by lia. reflexivity.
    + rewrite (Z.min_r b) by lia.
      rewrite !take_ge by (rewrite length_drop; lia). reflexivity.
  - rewrite (Z.min_r a), (Z.min_r b) by lia.
    rewrite !drop_ge by lia. rewrite !take_nil. reflexivity.
Qed.

(** Consecutive slices at non-decreasing bounds that start at 0 join into a
    prefix of the sequence. *)
Lemma join_slices {A : Type} (bound : nat -> Z) (L : list A) (k : nat) :
  bound 0%nat = 0 ->
  (forall i, (i < k)%nat -> bound i <= bound (S i)) ->
  mjoin ((fun i => py_slice (bound i) (bound (S i)) L) <$> seq 0 k)
  = take (Z.to_nat (bound k)) L.
Proof.
  intros H0. induction k as [|k IH]; intros Hmono.
  - cbn. rewrite H0. reflexivity.
  - assert (forall i, (i <= k)%nat -> 0 <= bound i) as Hpos.
    { intros i. induction i as [|i IHi]; intros Hi; [lia|].
      specialize (Hmono i ltac:(lia)). specialize (IHi ltac:(lia)). lia. }
    rewrite seq_S, fmap_app, join_app, IH by (intros; apply Hmono; lia).
    cbn [fmap list_fmap mjoin list_join Nat.add]. rewrite app_nil_r.
    specialize (Hmono k ltac:(lia)). specialize (Hpos k ltac:(lia)).
    rewrite py_slice_take_drop by lia.
    rewrite take_take_drop. f_equal. lia.
Qed.

(** ** Concatenation of slices *)

Lemma zip_with_fmap_same {A B C D : Type} (f : B -> C -> D) (g : A -> B)
    (g' : A -> C) (l : list A) :
  zip_with f (g <$> l) (g' <$> l) = (fun x => f (g x) (g' x)) <$> l.
Proof. induction l as [|x l IH]; cbn; [|rewrite IH]; reflexivity. Qed.

Lemma running_sums_step (l : list Z) (acc : Z) (i : nat) :
  Forall (fun x => 0 <= x) l -> (i < length l)%nat ->
  nth i (acc :: running_sums acc l) 0 <= nth (S i) (acc :: running_sums acc l) 0.
Proof.
  intros Hl. revert acc i. induction Hl as [|x xs Hx _ IH]; intros acc i Hi.
  - cbn in Hi. lia.
  - destruct i as [|i]; cbn in *; [lia|]. apply IH. lia.
Qed.

Lemma running_sums_last (l : list Z) (acc : Z) :
  nth (length l) (acc :: running_sums acc l) 0 = acc + py_sum l.
Proof.
  revert acc. induction l as [|x xs IH]; intros acc; [cbn; lia|].
  change (nth (length (x :: xs)) (acc :: running_sums acc (x :: xs)) 0)
    with (nth (length xs) ((acc + x) :: running_sums (acc + x) xs) 0).
  rewrite (IH (acc + x)). unfold py_sum. cbn [foldr]. lia.
Qed.

Lemma running_sums_range (l : list Z) (acc : Z) :
  Forall (fun x => 0 <= x) l ->
  Forall (fun s => acc <= s <= acc + py_sum l) (running_sums acc l).
Proof.
  intros Hl. revert acc. induction Hl as [|x xs Hx Hxs IH]; intros acc.
  - constructor.
  - assert (0 <= py_sum xs) as Hs.
    { clear -Hxs. induction Hxs as [|y ys Hy _ IHs]; [cbn; lia|].
      change (py_sum (y :: ys)) with (y + py_sum ys). lia. }
    change (py_sum (x :: xs)) with (x + py_sum xs). cbn [running_sums].
    constructor; [lia|].
    eapply Forall_impl; [apply (IH (acc + x))|]. cbn beta. intros s ?. lia.
Qed.

(** Non-negative lengths that sum to a [len] have 64-bit prefix sums. *)
Lemma prefix_sums_int64 (l : list Z) :
  Forall (fun x => 0 <= x) l -> py_sum l <= PY_SSIZE_T_MAX ->
  Forall int64 (prefix_sums (0 :: l)).
Proof.
  intros Hl Hs. unfold prefix_sums. cbn.
  constructor; [unfold int64; lia|].
  eapply Forall_impl; [apply (running_sums_range l 0 Hl)|].
  cbn. unfold int64, PY_SSIZE_T_MAX in *. intros s ?. lia.
Qed.

Section ConcatProperties.
Context {Label Value : Type}.
Implicit Types (df : DataFrame Label Value).

Lemma mapM_as_frame (fs : list (DataFrame Label Value)) :
  mapM as_frame (PyDataFrame <$> fs) = Some fs.
Proof. induction fs as [|f fs IH]; cbn; [|rewrite IH]; reflexivity. Qed.

Lemma concat_row_parts df (bound : nat -> Z) (i : nat) (rest : list nat) :
  concat_frames append_rows (row_part df (bound i) (bound (S i)))
    ((fun j => row_part df (bound j) (bound (S j))) <$> rest)
  = {| df_index :=
         mjoin ((fun j => py_slice (bound j) (bound (S j)) (df_index df))
                <$> i :: rest);
       df_columns := df_columns df;
       df_data :=
         mjoin ((fun j => py_slice (bound j) (bound (S j)) (df_data df))
                <$> i :: rest) |}.
Proof.
  revert i. induction rest as [|j rest IH]; intros i.
  - cbn. rewrite !app_nil_r. reflexivity.
  - cbn [fmap list_fmap concat_frames]. cbn [fmap list_fmap] in IH.
    rewrite IH. reflexivity.
Qed.

Lemma concat_col_parts df (bound : nat -> Z) (i : nat) (rest : list nat) :
  concat_frames append_cols (col_part df (bound i) (bound (S i)))
    ((fun j => col_part df (bound j) (bound (S j))) <$> rest)
  = {| df_index := df_index df;
       df_columns :=
         mjoin ((fun j => py_slice (bound j) (bound (S j)) (df_columns df))
                <$> i :: rest);
       df_data :=
         (fun row => mjoin ((fun j => py_slice (bound j) (bound (S j)) row)
                            <$> i :: rest))
         <$> df_data df |}.
Proof.
  revert i. induction rest as [|j rest IH]; intros i.
  - cbn. unfold col_part. f_equal; [rewrite app_nil_r; reflexivity|].
    apply list_fmap_ext. intros ? row _. rewrite app_nil_r. reflexivity.
  - cbn [fmap list_fmap concat_frames]. cbn [fmap list_fmap] in IH.
    rewrite IH. unfold append_cols, col_part. cbn [df_index df_columns df_data].
    f_equal. rewrite zip_with_fmap_same. reflexivity.
Qed.

(** Slices along an axis at non-decreasing bounds that start at 0 and end
    at or beyond the axis length concatenate to the frame. *)
Lemma concat_slices_round_trip df (axis : Z) (bound : nat -> Z) (k : nat) :
  wf_frame df -> axis = 0 \/ axis = 1 ->
  bound 0%nat = 0 ->
  (forall i, (i < S k)%nat -> bound i <= bound (S i)) ->
  axis_length axis df <= bound (S k) ->
  concat axis ((fun i => table_slice (Some axis) (PyDataFrame df)
                           (bound i) (bound (S i))) <$> seq 0 (S k))
  = Some df.
Proof.
  intros Hwf Haxis H0 Hmono Hend. unfold concat.
  destruct Hwf as [Hrows Hcols _ _]. destruct df as [idx cols data].
  unfold axis_length in Hend. cbn [df_index df_columns df_data] in *.
  destruct Haxis as [-> | ->]; cbn [Z.eqb Pos.eqb axis_eq table_slice] in *.
  - change (fun i : nat => PyDataFrame _)
      with (PyDataFrame ∘ (fun i => row_part (mkDataFrame idx cols data)
                                       (bound i) (bound (S i)))).
    rewrite list_fmap_compose, mapM_as_frame. cbn [mbind option_bind].
    cbn [seq fmap list_fmap].
    rewrite (concat_row_parts (mkDataFrame idx cols data) bound 0 (seq 1 k)).
    cbn [df_index df_columns df_data].
    change (0%nat :: seq 1 k) with (seq 0 (S k)).
    rewrite !join_slices by assumption.
    unfold len in Hend. rewrite !take_ge by lia. reflexivity.
  - change (fun i : nat => PyDataFrame _)
      with (PyDataFrame ∘ (fun i => col_part (mkDataFrame idx cols data)
                                       (bound i) (bound (S i)))).
    rewrite list_fmap_compose, mapM_as_frame. cbn [mbind option_bind].
    cbn [seq fmap list_fmap].
    rewrite (concat_col_parts (mkDataFrame idx cols data) bound 0 (seq 1 k)).
    cbn [df_index df_columns df_data].
    change (0%nat :: seq 1 k) with (seq 0 (S k)).
    rewrite join_slices by assumption.
    unfold len in Hend. rewrite take_ge by lia.
    do 2 f_equal. rewrite <- (list_fmap_id data) at 2.
    apply Forall_fmap_ext. eapply Forall_impl; [exact Hcols|].
    cbn beta. intros row Hrow. unfold id.
    rewrite join_slices by assumption. apply take_ge. lia.
Qed.
End ConcatProperties.

Section SplitterProperties.
Context {Label Value : Type}.
Variable MinPartitionSize : Z.
Implicit Types (df : DataFrame Label Value) (o T : py_obj Label Value).
Implicit Types (h : gmap loc (py_obj Label Value)) (r ll : loc).
Implicit Types (axis : option Z) (l : list Z).

(** On a table, the body of the row or column comprehension is the slice
    along the target axis. *)
Lemma slice_of_table axis T (a b : Z) :
  is_table T = true ->
  (if axis_eq axis 0 || is_Series T
   then attr_iloc T;; iloc_rows T a b
   else attr_iloc T;; iloc_cols T a b) = Ok (table_slice axis T a b).
Proof.
  destruct T as [d|s|l']; cbn; [| |discriminate]; intros _.
  - rewrite orb_false_r. destruct (axis_eq axis 0); reflexivity.
  - rewrite orb_true_r. reflexivity.
Qed.

(** What the length-list path computes: the caller's list gets a leading
    0, and the result is read off the cumulative sums of the updated
    list. *)
Lemma split_length_list_run axis (N : Z) r ll h l :
  h !! ll = Some (PyList l) ->
  split_result_of_axis_func_pandas MinPartitionSize axis N r (Some ll) h =
    let h' := <[ll := PyList (0 :: l)]> h in
    let sums := np_cumsum (0 :: l) in
    match h' !! r with
    | Some T =>
        (if axis_eq axis 0 || is_Series T then
           comprehension
             (fun i => attr_iloc T;;
                       iloc_rows T (at_index sums i) (at_index sums (i + 1)))
             (range (len sums - 1))
         else
           comprehension
             (fun i => attr_iloc T;;
                       iloc_cols T (at_index sums i) (at_index sums (i + 1)))
             (range (len sums - 1)), h')
    | None => (Raise SystemError, h')
    end.
Proof.
  intros Hll.
  unfold split_result_of_axis_func_pandas, mbind, M_bind, list_insert,
    cumsum_of, deref, lift.
  rewrite Hll. cbv beta iota zeta.
  replace (Z.to_nat (slice_bound (len l) 0)) with 0%nat
    by (unfold slice_bound, len; cbn; lia).
  change (take 0 l ++ 0 :: drop 0 l) with (0 :: l).
  cbn. rewrite lookup_insert_eq.
  destruct (<[ll:=PyList (0 :: l)]> h !! r) as [T|]; [|reflexivity].
  destruct (axis_eq axis 0 || is_Series T); reflexivity.
Qed.

Lemma split_length_list_table axis (N : Z) r ll h l T :
  h !! r = Some T -> is_table T = true -> h !! ll = Some (PyList l) ->
  split_result_of_axis_func_pandas MinPartitionSize axis N r (Some ll) h =
    (Ok ((fun i : nat => table_slice axis T (nth i (np_cumsum (0 :: l)) 0)
                           (nth (S i) (np_cumsum (0 :: l)) 0))
         <$> seq 0 (length l)),
     <[ll := PyList (0 :: l)]> h).
Proof.
  intros Hr HT Hll. rewrite (split_length_list_run _ _ _ _ _ l Hll). cbn zeta.
  assert (r <> ll) as Hne.
  { intros ->. rewrite Hll in Hr. injection Hr as <-. discriminate. }
  rewrite lookup_insert_ne, Hr by congruence.
  f_equal.
  replace (len (np_cumsum (0 :: l)) - 1) with (Z.of_nat (length l)).
  2:{ unfold len, np_cumsum. rewrite length_cumsum_from. cbn [length]. lia. }
  rewrite range_of_nat.
  set (sums := np_cumsum (0 :: l)).
  transitivity (comprehension
    (fun i => if axis_eq axis 0 || is_Series T
              then attr_iloc T;; iloc_rows T (at_index sums i) (at_index sums (i + 1))
              else attr_iloc T;; iloc_cols T (at_index sums i) (at_index sums (i + 1)))
    (Z.of_nat <$> seq 0 (length l))).
  { destruct (axis_eq axis 0 || is_Series T); reflexivity. }
  rewrite (comprehension_ok _
    (fun i => table_slice axis T (at_index sums i) (at_index sums (i + 1)))).
  2:{ intros i. apply slice_of_table, HT. }
  f_equal. rewrite <- list_fmap_compose. apply list_fmap_ext.
  intros i j _. unfold compose.
  destruct (at_index_of_nat sums j) as [-> ->]. reflexivity.
Qed.

(** C8: with one split and no length list, the result is the
    one-element sequence holding the table itself, for every table and
    every axis; the heap is as before. *)
Theorem single_split_is_identity axis r h T :
  h !! r = Some T ->
  split_result_of_axis_func_pandas MinPartitionSize axis 1 r None h = (Ok [T], h).
Proof.
  intros Hr.
  unfold split_result_of_axis_func_pandas, mbind, M_bind, deref.
  rewrite Hr. reflexivity.
Qed.

(** On a series the length-list path slices the rows whatever the axis
    is. *)
Lemma series_length_list_rows axis (N : Z) r ll h l (s : Series Label Value) :
  h !! r = Some (PySeries s) -> h !! ll = Some (PyList l) ->
  fst (split_result_of_axis_func_pandas MinPartitionSize axis N r (Some ll) h)
  = Ok ((fun i : nat =>
           let a := nth i (np_cumsum (0 :: l)) 0 in
           let b := nth (S i) (np_cumsum (0 :: l)) 0 in
           PySeries {| s_index := py_slice a b (s_index s);
                       s_values := py_slice a b (s_values s) |})
        <$> seq 0 (length l)).
Proof.
  intros Hr Hll.
  rewrite (split_length_list_table axis N r ll h l (PySeries s) Hr eq_refl Hll).
  reflexivity.
Qed.

(** C3, the defect: on a series, the uniform path with the column axis
    raises [AttributeError] for every split count other than 1, because
    [compute_chunksize] reads [columns] off the series. *)
Theorem series_uniform_split_columns_raises (N : Z) r h (s : Series Label Value) :
  h !! r = Some (PySeries s) -> N <> 1 ->
  split_result_of_axis_func_pandas MinPartitionSize (Some 1) N r None h
  = (Raise AttributeError, h).
Proof.
  intros Hr HN.
  unfold split_result_of_axis_func_pandas, mbind, M_bind, deref, lift.
  rewrite Hr. destruct (Z.eqb_spec N 1) as [?|_]; [contradiction|].
  reflexivity.
Qed.




(** C2 (as amended): a call leaves the table, and every heap object other
    than the supplied length list, unchanged; with no length list the heap
    is unchanged; a supplied length list is updated in place, a 0 being
    inserted at its front. *)
Theorem split_side_effects axis (N : Z) r (length_list : option loc) h :
  let h' :=
    snd (split_result_of_axis_func_pandas MinPartitionSize axis N r length_list h) in
  (forall p, length_list <> Some p -> h' !! p = h !! p) /\
  (length_list = None -> h' = h) /\
  (forall ll l, length_list = Some ll -> h !! ll = Some (PyList l) ->
     h' !! ll = Some (PyList (0 :: l))).
Proof.
  intros h'.
  assert (length_list = None -> h' = h) as Hnone.
  { intros ->. subst h'.
    unfold split_result_of_axis_func_pandas, mbind, M_bind, deref, lift, mret, M_ret.
    destruct (h !! r) as [T|]; [|reflexivity].
    destruct (N =? 1); [reflexivity|].
    destruct (compute_chunksize _ _ _ _ _); [|reflexivity].
    destruct (axis_eq axis 0 || is_Series T); reflexivity. }
  split; [|split; [exact Hnone|]].
  - intros p Hp. destruct length_list as [ll|]; [|rewrite Hnone; reflexivity].
    subst h'. destruct (h !! ll) as [[d|s|l]|] eqn:Hll.
    + unfold split_result_of_axis_func_pandas, mbind, M_bind, list_insert.
      rewrite Hll. reflexivity.
    + unfold split_result_of_axis_func_pandas, mbind, M_bind, list_insert.
      rewrite Hll. reflexivity.
    + rewrite (split_length_list_run _ _ _ _ _ l Hll). cbn zeta.
      destruct (<[ll:=PyList (0 :: l)]> h !! r); cbn;
        apply lookup_insert_ne; congruence.
    + unfold split_result_of_axis_func_pandas, mbind, M_bind, list_insert.
      rewrite Hll. reflexivity.
  - intros ll l -> Hll. subst h'.
    rewrite (split_length_list_run _ _ _ _ _ l Hll). cbn zeta.
    destruct (<[ll:=PyList (0 :: l)]> h !! r); cbn; apply lookup_insert_eq.
Qed.
(** C7 (as amended): with a length list [l] of [k] entries whose entries
    and prefix sums fit in 64-bit signed integers, the result is read off
    the prefix sums of [0 :: l]: it has exactly [k] partitions, partition
    [i] is the slice [[prefix[i], prefix[i+1])] along the target axis, and
    the split count plays no part; a 5-row frame with the list [2; 2; 1]
    yields the rows [[0,2)], [[2,4)] and [[4,5)]. *)
Theorem length_list_partitions axis r ll h l T :
  h !! r = Some T -> is_table T = true ->
  h !! ll = Some (PyList l) -> int64_sums l ->
  let prefix := prefix_sums (0 :: l) in
  exists parts,
    (forall N,
       fst (split_result_of_axis_func_pandas MinPartitionSize axis N r (Some ll) h)
       = Ok parts) /\
    length parts = length l /\
    (forall i, (i < length l)%nat ->
       parts !! i = Some (table_slice axis T (nth i prefix 0) (nth (S i) prefix 0))) /\
    (forall df, T = PyDataFrame df -> len (df_index df) = 5 ->
       l = [2; 2; 1] -> axis = Some 0 ->
       parts =
         [PyDataFrame {| df_index := take 2 (df_index df);
                         df_columns := df_columns df;
                         df_data := take 2 (df_data df) |};
          PyDataFrame {| df_index := take 2 (drop 2 (df_index df));
                         df_columns := df_columns df;
                         df_data := take 2 (drop 2 (df_data df)) |};
          PyDataFrame {| df_index := take 1 (drop 4 (df_index df));
                         df_columns := df_columns df;
                         df_data := take 1 (drop 4 (df_data df)) |}]).
Proof.
  intros Hr HT Hll [_ Hsums] prefix.
  eexists. split; [|split; [|split]].
  - intros N. rewrite (split_length_list_table _ _ _ _ _ l T Hr HT Hll).
    cbn [fst]. rewrite (np_cumsum_exact _ Hsums). reflexivity.
  - rewrite length_fmap, length_seq. reflexivity.
  - intros i Hi. rewrite list_lookup_fmap, lookup_seq_lt by assumption.
    reflexivity.
  - intros df -> _ -> ->.
    change (prefix_sums [0; 2; 2; 1]) with [0; 2; 4; 5]. cbn.
    unfold row_part. cbn [df_index df_columns df_data].
    rewrite !(py_slice_take_drop 0 2), !(py_slice_take_drop 2 4),
      !(py_slice_take_drop 4 5) by lia.
    reflexivity.
Qed.

(** What the uniform path computes on a data frame for more than one
    split. *)
Lemma split_uniform_frame (a : Z) (N : Z) r h df :
  h !! r = Some (PyDataFrame df) -> a = 0 \/ a = 1 -> 1 < N ->
  let c := py_max3 1 (ceil_div (axis_length a df) N) MinPartitionSize in
  split_result_of_axis_func_pandas MinPartitionSize (Some a) N r None h =
    (Ok ((fun i : nat => table_slice (Some a) (PyDataFrame df)
                           (c * Z.of_nat i) (c * Z.of_nat (S i)))
         <$> seq 0 (Z.to_nat N)), h).
Proof.
  intros Hr Ha HN c.
  destruct (compute_chunksize_frame MinPartitionSize df N None ltac:(lia))
    as (H0 & H1 & _).
  unfold split_result_of_axis_func_pandas, mbind, M_bind, deref, lift.
  rewrite Hr. destruct (Z.eqb_spec N 1) as [?|_]; [lia|].
  assert (compute_chunksize MinPartitionSize (PyDataFrame df) N None (Some a)
          = Ok (Single c)) as ->.
  { destruct Ha as [-> | ->]; assumption. }
  cbv beta iota.
  pose proof (fun x y => slice_of_table (Some a) (PyDataFrame df) x y eq_refl)
    as Hslice.
  assert (forall j : nat, c * (Z.of_nat j + 1) = c * Z.of_nat (S j)) as Hsucc
    by (intros; f_equal; lia).
  destruct (axis_eq (Some a) 0 || is_Series (PyDataFrame df));
    unfold range;
    rewrite (comprehension_ok _
      (fun i => table_slice (Some a) (PyDataFrame df) (c * i) (c * (i + 1))))
      by (intros i; apply Hslice);
    rewrite <- list_fmap_compose; do 2 f_equal;
    apply list_fmap_ext; intros _ j _; unfold compose; rewrite Hsucc;
    reflexivity.
Qed.

(** C1 (as amended): for a data frame, either axis and every split count
    [N >= 1], and likewise for every non-empty length list of non-negative
    entries that sum to the axis length, the partitions concatenated in
    order along the split axis give back the frame. *)
Theorem split_round_trip (a : Z) r h df :
  wf_frame df -> h !! r = Some (PyDataFrame df) -> a = 0 \/ a = 1 ->
  (forall N, 1 <= N ->
     exists parts,
       fst (split_result_of_axis_func_pandas MinPartitionSize (Some a) N r None h)
       = Ok parts /\
       concat a parts = Some df) /\
  (forall N ll l,
     h !! ll = Some (PyList l) -> l <> [] ->
     Forall (fun x => 0 <= x) l -> py_sum l = axis_length a df ->
     exists parts,
       fst (split_result_of_axis_func_pandas MinPartitionSize (Some a) N r (Some ll) h)
       = Ok parts /\
       concat a parts = Some df).
Proof.
  intros Hwf Hr Ha. split.
  - intros N HN. destruct (Z.eq_dec N 1) as [-> | HN1].
    + exists [PyDataFrame df]. split.
      * unfold split_result_of_axis_func_pandas, mbind, M_bind, deref.
        rewrite Hr. reflexivity.
      * unfold concat. cbn. reflexivity.
    + rewrite (split_uniform_frame a N r h df Hr Ha) by lia.
      eexists. split; [reflexivity|].
      set (c := py_max3 1 (ceil_div (axis_length a df) N) MinPartitionSize).
      assert (1 <= c) as Hc by (unfold c, py_max3; lia).
      assert (axis_length a df <= c * N) as Hcover.
      { pose proof (ceil_div_bounds (axis_length a df) N ltac:(lia)).
        assert (ceil_div (axis_length a df) N <= c) by (unfold c, py_max3; lia).
        nia. }
      destruct (Z.to_nat N) as [|k] eqn:Hk; [lia|].
      apply (concat_slices_round_trip df a (fun i => c * Z.of_nat i) k Hwf Ha).
      * lia.
      * intros i _. nia.
      * replace (Z.of_nat (S k)) with N by lia. exact Hcover.
  - intros N ll l Hll Hne Hpos Hsum.
    assert (Forall int64 (prefix_sums (0 :: l))) as Hint.
    { apply prefix_sums_int64; [exact Hpos|]. rewrite Hsum.
      unfold axis_length. destruct Hwf. destruct (a =? 0); assumption. }
    rewrite (split_length_list_table (Some a) N r ll h l (PyDataFrame df) Hr
               eq_refl Hll).
    cbn [fst]. rewrite (np_cumsum_exact _ Hint).
    eexists. split; [reflexivity|].
    destruct l as [|x l']; [congruence|].
    change (length (x :: l')) with (S (length l')).
    apply (concat_slices_round_trip df a
             (fun i => nth i (prefix_sums (0 :: x :: l')) 0) (length l') Hwf Ha).
    + reflexivity.
    + intros i Hi.
      apply (running_sums_step (x :: l') 0 i Hpos). cbn [length]. lia.
    + pose proof (running_sums_last (x :: l') 0) as Hlast.
      change (nth (S (length l')) (prefix_sums (0 :: x :: l')) 0)
        with (nth (length (x :: l')) (0 :: running_sums 0 (x :: l')) 0).
      rewrite Hlast. lia.
Qed.
End SplitterProperties.

(** ** The properties at the example inputs *)

Lemma frame5_wf : wf_frame frame5.
Proof.
  split; cbn.
  - reflexivity.
  - repeat constructor.
  - unfold len, PY_SSIZE_T_MAX. cbn. lia.
  - unfold len, PY_SSIZE_T_MAX. cbn. lia.
Qed.

Lemma empty_frame_wf : wf_frame empty_frame.
Proof.
  split; cbn.
  - reflexivity.
  - constructor.
  - unfold len, PY_SSIZE_T_MAX. cbn. lia.
  - unfold len, PY_SSIZE_T_MAX. cbn. lia.
Qed.

Lemma split_round_trip_witness :
  (exists parts,
     fst (split_result_of_axis_func_pandas default_MinPartitionSize (Some 1) 3
            1%positive None example_heap) = Ok parts /\
     concat 1 parts = Some frame5) /\
  (exists parts,
     fst (split_result_of_axis_func_pandas default_MinPartitionSize (Some 0) 3
            1%positive (Some 2%positive) example_heap) = Ok parts /\
     concat 0 parts = Some frame5).
Proof.
  split.
  - apply (proj1 (split_round_trip default_MinPartitionSize 1 1%positive
                      example_heap frame5 frame5_wf eq_refl (or_intror eq_refl))).
    lia.
  - apply (proj2 (split_round_trip default_MinPartitionSize 0 1%positive
                      example_heap frame5 frame5_wf eq_refl (or_introl eq_refl))
             3 2%positive [2; 2; 1]).
    + reflexivity.
    + discriminate.
    + repeat constructor; lia.
    + reflexivity.
Defined.

(** C1 (as stated) fails on an empty length list: its entries sum to the
    length 0 of the row axis of [empty_frame], the result is the empty
    sequence, and there is nothing to concatenate. *)
Lemma round_trip_fails_on_empty_length_list :
  wf_frame empty_frame /\
  example_heap !! 5%positive = Some (PyList []) /\
  py_sum [] = axis_length 0 empty_frame /\
  exists parts,
    fst (split_result_of_axis_func_pandas default_MinPartitionSize (Some 0) 1
           4%positive (Some 5%positive) example_heap) = Ok parts /\
    concat 0 parts <> Some empty_frame.
Proof.
  split; [exact empty_frame_wf|]. split; [reflexivity|]. split; [reflexivity|].
  exists []. split; [vm_compute; reflexivity | discriminate].
Qed.

(** No way of putting partitions together can repair this: with an empty
    length list, two different frames without rows have the same, empty,
    partition sequence. *)
Lemma empty_length_list_loses_the_frame :
  let other := mkDataFrame [] [11] [] : DataFrame Z Z in
  let h := <[4%positive := PyDataFrame other]> example_heap in
  fst (split_result_of_axis_func_pandas default_MinPartitionSize (Some 0) 1
         4%positive (Some 5%positive) example_heap)
  = fst (split_result_of_axis_func_pandas default_MinPartitionSize (Some 0) 1
           4%positive (Some 5%positive) h)
  /\ other <> empty_frame.
Proof. split; [vm_compute; reflexivity | discriminate]. Qed.

(** C2 (as stated) fails: the call changes the length list it is given. *)
Lemma split_changes_the_length_list :
  example_heap !! 2%positive = Some (PyList [2; 2; 1]) /\
  snd (split_result_of_axis_func_pandas default_MinPartitionSize (Some 0) 3
         1%positive (Some 2%positive) example_heap) !! 2%positive
  = Some (PyList [0; 2; 2; 1]) /\
  snd (split_result_of_axis_func_pandas default_MinPartitionSize (Some 0) 3
         1%positive (Some 2%positive) example_heap) <> example_heap.
Proof.
  split; [reflexivity|]. split; [vm_compute; reflexivity|].
  intros Heq. apply (f_equal (fun h => h !! 2%positive)) in Heq.
  vm_compute in Heq. discriminate.
Qed.

Lemma split_side_effects_witness :
  snd (split_result_of_axis_func_pandas default_MinPartitionSize (Some 0) 3
         1%positive (Some 2%positive) example_heap) !! 1%positive
  = Some (PyDataFrame frame5)
  /\ snd (split_result_of_axis_func_pandas default_MinPartitionSize (Some 0) 3
            1%positive None example_heap) = example_heap.
Proof.
  pose proof (split_side_effects default_MinPartitionSize (Some 0) 3
                1%positive (Some 2%positive) example_heap) as Hlist.
  pose proof (split_side_effects default_MinPartitionSize (Some 0) 3
                1%positive None example_heap) as Hnone.
  cbv zeta in Hlist, Hnone.
  destruct Hlist as (Hother & _ & _). destruct Hnone as (_ & Hnone & _).
  split.
  - rewrite Hother; [reflexivity | discriminate].
  - apply Hnone. reflexivity.
Defined.

Lemma series_uniform_split_columns_raises_witness :
  split_result_of_axis_func_pandas default_MinPartitionSize (Some 1) 2
    3%positive None example_heap
  = (Raise AttributeError, example_heap).
Proof.
  apply (series_uniform_split_columns_raises default_MinPartitionSize 2
           3%positive example_heap series3).
  - reflexivity.
  - discriminate.
Defined.

Lemma single_split_is_identity_witness :
  split_result_of_axis_func_pandas default_MinPartitionSize (Some 1) 1
    1%positive None example_heap
  = (Ok [PyDataFrame frame5], example_heap).
Proof.
  apply (single_split_is_identity default_MinPartitionSize (Some 1)
           1%positive example_heap (PyDataFrame frame5)).
  reflexivity.
Defined.


Lemma length_list_partitions_witness :
  fst (split_result_of_axis_func_pandas default_MinPartitionSize (Some 0) 7
         1%positive (Some 2%positive) example_heap)
  = Ok [PyDataFrame (mkDataFrame [0; 1] [10; 11] [[1; 2]; [3; 4]]);
        PyDataFrame (mkDataFrame [2; 3] [10; 11] [[5; 6]; [7; 8]]);
        PyDataFrame (mkDataFrame [4] [10; 11] [[9; 10]])].
Proof.
  destruct (length_list_partitions default_MinPartitionSize (Some 0)
              1%positive 2%positive example_heap [2; 2; 1] (PyDataFrame frame5))
    as (parts & Hrun & _ & _ & Hscenario).
  - reflexivity.
  - reflexivity.
  - reflexivity.
  - split; repeat constructor; unfold int64; lia.
  - transitivity (Ok parts); [apply Hrun|]. f_equal.
    apply (Hscenario frame5); reflexivity.
Defined.

(** C7 (as stated) fails when the sums leave the 64-bit integers.  The
    entries of [[1; 2 ^ 63 - 1]] fit, their prefix sums are 0, 1 and
    [2 ^ 63], and [numpy.cumsum] wraps the last one to [- 2 ^ 63]: the second
    partition of the 5-row frame is empty, where the slice [[1, 2 ^ 63)]
    holds the rows 1 to 4. *)
Lemma length_list_partitions_fail_on_wrap_around :
  overflow_heap !! 6%positive = Some (PyList [1; 2 ^ 63 - 1]) /\
  Forall int64 [1; 2 ^ 63 - 1] /\
  prefix_sums (0 :: [1; 2 ^ 63 - 1]) = [0; 1; 2 ^ 63] /\
  table_slice (Some 0) (PyDataFrame frame5) 1 (2 ^ 63)
  = PyDataFrame (mkDataFrame [1; 2; 3; 4] [10; 11]
                   [[3; 4]; [5; 6]; [7; 8]; [9; 10]]) /\
  exists parts,
    fst (split_result_of_axis_func_pandas default_MinPartitionSize (Some 0) 3
           1%positive (Some 6%positive) overflow_heap) = Ok parts /\
    parts !! 1%nat = Some (PyDataFrame (mkDataFrame [] [10; 11] [])) /\
    parts !! 1%nat
    <> Some (table_slice (Some 0) (PyDataFrame frame5)
               (nth 1 (prefix_sums (0 :: [1; 2 ^ 63 - 1])) 0)
               (nth 2 (prefix_sums (0 :: [1; 2 ^ 63 - 1])) 0)).
Proof.
  split; [vm_compute; reflexivity|].
  split; [repeat constructor; unfold int64; lia|].
  split; [vm_compute; reflexivity|].
  split; [vm_compute; reflexivity|].
  eexists. split; [vm_compute; reflexivity|].
  split; [vm_compute; reflexivity|].
  vm_compute. discriminate.
Qed.

(** * Further properties of the module *)

(** ** [get_default_chunksize] beyond positive split counts *)

Lemma get_default_chunksize_negative (L N : Z) :
  N < 0 ->
  exists C, get_default_chunksize L N = Ok C /\ C * N <= L < (C - 1) * N.
Proof.
  intros HN. unfold get_default_chunksize.
  destruct (Z.eqb_spec N 0) as [?|_]; [lia|].
  pose proof (Z.div_mod L N ltac:(lia)) as Hdm.
  pose proof (Z.mod_neg_bound L N HN) as Hm.
  destruct (Z.eqb_spec (L mod N) 0) as [H0|H0]; eexists; (split; [reflexivity|nia]).
Qed.

Lemma get_default_chunksize_defined (L N : Z) :
  N <> 0 -> exists C, get_default_chunksize L N = Ok C.
Proof.
  intros HN. destruct (Z.lt_trichotomy N 0) as [Hneg|[?|Hpos]]; [|lia|].
  - destruct (get_default_chunksize_negative L N Hneg) as (C & HC & _). eauto.
  - exists (ceil_div L N). apply get_default_chunksize_ceil, Hpos.
Qed.

(** X1: [get_default_chunksize] raises [ZeroDivisionError] exactly when the
    split count is 0; for every other split count, positive or negative, and
    every length it returns the quotient rounded up. *)
Theorem get_default_chunksize_division (L N : Z) :
  (get_default_chunksize L N = Raise ZeroDivisionError <-> N = 0) /\
  (0 < N ->
   exists C, get_default_chunksize L N = Ok C /\ (C - 1) * N < L <= C * N) /\
  (N < 0 ->
   exists C, get_default_chunksize L N = Ok C /\ C * N <= L < (C - 1) * N).
Proof.
  split; [|split].
  - split.
    + intros Hraise. destruct (Z.eq_dec N 0) as [?|HN]; [assumption|].
      destruct (get_default_chunksize_defined L N HN) as (C & HC).
      congruence.
    + intros ->. reflexivity.
  - intros HN. exists (ceil_div L N). split.
    + apply get_default_chunksize_ceil, HN.
    + apply ceil_div_bounds, HN.
  - apply get_default_chunksize_negative.
Qed.

Lemma get_default_chunksize_division_witness :
  exists C, get_default_chunksize 10 (-3) = Ok C /\ C * (-3) <= 10 < (C - 1) * (-3).
Proof. apply (get_default_chunksize_division 10 (-3)). lia. Defined.

(** X2: for a positive split count the chunksize does not decrease when the
    length grows, and for a non-negative length it does not increase when
    the split count grows. *)
Theorem get_default_chunksize_monotone (L L' N N' C : Z) :
  0 < N -> get_default_chunksize L N = Ok C ->
  (L <= L' -> exists C', get_default_chunksize L' N = Ok C' /\ C <= C') /\
  (0 <= L -> N <= N' -> exists C', get_default_chunksize L N' = Ok C' /\ C' <= C).
Proof.
  intros HN HC. rewrite get_default_chunksize_ceil in HC by assumption.
  injection HC as <-.
  pose proof (ceil_div_bounds L N HN) as Hb. split.
  - intros HL. exists (ceil_div L' N). split.
    + apply get_default_chunksize_ceil, HN.
    + pose proof (ceil_div_bounds L' N HN). nia.
  - intros HL HN'. exists (ceil_div L N'). split.
    + apply get_default_chunksize_ceil. lia.
    + pose proof (ceil_div_bounds L N' ltac:(lia)) as Hb'.
      assert (0 <= ceil_div L N) by nia. nia.
Qed.

Lemma get_default_chunksize_monotone_witness :
  exists C', get_default_chunksize 10 5 = Ok C' /\ C' <= 4.
Proof.
  apply (get_default_chunksize_monotone 10 10 3 5 4); [lia | reflexivity | lia | lia].
Defined.

(** ** [compute_chunksize]: coverage and failures *)

Section CalculatorEdges.
Context {Label Value : Type}.
Variable MinPartitionSize : Z.
Implicit Types (df : DataFrame Label Value) (s : Series Label Value).

(** X3: on a data frame and for [N >= 1], [N] chunks of the size that
    [compute_chunksize] returns for an axis cover that axis, whatever the
    minimum block size is. *)
Theorem compute_chunksize_covers df (N : Z) (override : option Z) (a : Z) :
  1 <= N -> a = 0 \/ a = 1 ->
  exists c,
    compute_chunksize MinPartitionSize (PyDataFrame df) N override (Some a)
    = Ok (Single c) /\
    axis_length a df <= c * N.
Proof.
  intros HN Ha.
  destruct (compute_chunksize_frame MinPartitionSize df N override ltac:(lia))
    as (H0 & H1 & _).
  set (m := effective_minimum MinPartitionSize override) in *.
  destruct Ha as [-> | ->]; eexists; (split; [eassumption|]); cbn.
  - pose proof (ceil_div_bounds (len (df_index df)) N ltac:(lia)).
    unfold py_max3. nia.
  - pose proof (ceil_div_bounds (len (df_columns df)) N ltac:(lia)).
    unfold py_max3. nia.
Qed.

(** X4: on a data frame, a split count of 0 makes [compute_chunksize] raise
    [ZeroDivisionError] for every axis argument, and an axis argument other
    than 0, 1 and [None] makes it raise [UnboundLocalError] for every other
    split count. *)
Theorem compute_chunksize_frame_failures df (override : option Z) :
  (forall axis,
     compute_chunksize MinPartitionSize (PyDataFrame df) 0 override axis
     = Raise ZeroDivisionError) /\
  (forall a N, N <> 0 -> a <> 0 -> a <> 1 ->
     compute_chunksize MinPartitionSize (PyDataFrame df) N override (Some a)
     = Raise UnboundLocalError).
Proof.
  split.
  - intros [a|]; unfold compute_chunksize; cbn; [|reflexivity].
    destruct (a =? 0); reflexivity.
  - intros a N HN Ha0 Ha1. unfold compute_chunksize. cbn.
    destruct (Z.eqb_spec a 0) as [?|_]; [contradiction|]. cbn.
    destruct (get_default_chunksize_defined (len (df_columns df)) N HN) as (C & ->).
    cbn. destruct (Z.eqb_spec a 1) as [?|_]; [contradiction|]. reflexivity.
Qed.

(** X5: on a series, [compute_chunksize] with axis 0 reads the index only:
    for [N >= 1] it returns the maximum of 1, the ceiling of the length of
    the series over [N] and the effective minimum block size, a chunksize of
    which [N] chunks cover the series; a split count of 0 raises
    [ZeroDivisionError], for the axis 0 and for the axis [None]. *)
Theorem compute_chunksize_series s (N : Z) (override : option Z) :
  (1 <= N ->
   exists c,
     compute_chunksize MinPartitionSize (PySeries s) N override (Some 0)
     = Ok (Single c) /\
     c = Z.max 1 (Z.max (ceil_div (len (s_index s)) N)
                        (effective_minimum MinPartitionSize override)) /\
     len (s_index s) <= c * N) /\
  compute_chunksize MinPartitionSize (PySeries s) 0 override (Some 0)
  = Raise ZeroDivisionError /\
  compute_chunksize MinPartitionSize (PySeries s) 0 override None
  = Raise ZeroDivisionError.
Proof.
  split; [|split].
  - intros HN. eexists. split; [|split; [reflexivity|]].
    + unfold compute_chunksize. cbn.
      rewrite get_default_chunksize_ceil by lia. cbn.
      destruct override; reflexivity.
    + pose proof (ceil_div_bounds (len (s_index s)) N ltac:(lia)). nia.
  - reflexivity.
  - reflexivity.
Qed.
End CalculatorEdges.

Lemma compute_chunksize_covers_witness :
  exists c,
    compute_chunksize default_MinPartitionSize (PyDataFrame frame5) 3 (Some 1) (Some 0)
    = Ok (Single c) /\
    axis_length 0 frame5 <= c * 3.
Proof.
  apply (compute_chunksize_covers default_MinPartitionSize frame5 3 (Some 1) 0).
  - lia.
  - left. reflexivity.
Defined.

Lemma compute_chunksize_frame_failures_witness :
  compute_chunksize default_MinPartitionSize (PyDataFrame frame5) 3 None (Some 2)
  = Raise UnboundLocalError.
Proof.
  apply (proj2 (compute_chunksize_frame_failures default_MinPartitionSize frame5 None)).
  - discriminate.
  - discriminate.
  - discriminate.
Defined.

Lemma compute_chunksize_series_witness :
  exists c,
    compute_chunksize default_MinPartitionSize (PySeries series3) 2 (Some 1) (Some 0)
    = Ok (Single c) /\
    c = 2 /\ len (s_index series3) <= c * 2.
Proof.
  apply (proj1 (compute_chunksize_series default_MinPartitionSize series3 2 (Some 1))).
  lia.
Defined.

(** ** The uniform path: how many partitions, and how large *)

Lemma len_py_slice {A : Type} (a b : Z) (L : list A) :
  0 <= a <= b ->
  len (py_slice a b L) = Z.max 0 (Z.min (b - a) (len L - a)).
Proof.
  intros Hab. rewrite py_slice_take_drop by assumption.
  unfold len. rewrite length_take, length_drop. lia.
Qed.

Section UniformPath.
Context {Label Value : Type}.
Variable MinPartitionSize : Z.
Implicit Types (df : DataFrame Label Value) (o T : py_obj Label Value).
Implicit Types (h : gmap loc (py_obj Label Value)) (r ll : loc).
Implicit Types (axis : option Z) (l : list Z).

(** What the uniform path computes on a table once the chunksize is an
    integer [c]. *)
Lemma split_uniform_run axis (N c : Z) r h T :
  h !! r = Some T -> is_table T = true -> N <> 1 ->
  compute_chunksize MinPartitionSize T N None axis = Ok (Single c) ->
  split_result_of_axis_func_pandas MinPartitionSize axis N r None h =
    (Ok ((fun i : nat => table_slice axis T (c * Z.of_nat i) (c * Z.of_nat (S i)))
         <$> seq 0 (Z.to_nat N)), h).
Proof.
  intros Hr HT HN Hc.
  unfold split_result_of_axis_func_pandas, mbind, M_bind, deref, lift.
  rewrite Hr. destruct (Z.eqb_spec N 1) as [?|_]; [contradiction|].
  rewrite Hc. cbv beta iota.
  pose proof (fun x y => slice_of_table axis T x y HT) as Hslice.
  assert (forall j : nat, c * (Z.of_nat j + 1) = c * Z.of_nat (S j)) as Hsucc
    by (intros; f_equal; lia).
  destruct (axis_eq axis 0 || is_Series T);
    unfold range;
    rewrite (comprehension_ok _
      (fun i => table_slice axis T (c * i) (c * (i + 1))))
      by (intros i; apply Hslice);
    rewrite <- list_fmap_compose; do 2 f_equal;
    apply list_fmap_ext; intros _ j _; unfold compose; rewrite Hsucc;
    reflexivity.
Qed.

Lemma compute_chunksize_frame_defined df (N : Z) (a : Z) :
  N <> 0 -> a = 0 \/ a = 1 ->
  exists c, compute_chunksize MinPartitionSize (PyDataFrame df) N None (Some a)
            = Ok (Single c).
Proof.
  intros HN [-> | ->]; unfold compute_chunksize; cbn.
  - destruct (get_default_chunksize_defined (len (df_index df)) N HN) as (C & ->).
    cbn. eauto.
  - destruct (get_default_chunksize_defined (len (df_columns df)) N HN) as (C & ->).
    cbn. eauto.
Qed.

(** X6: for more than one split, the uniform path cuts a data frame into
    exactly [num_splits] partitions at the multiples of the chunksize [c]
    that [compute_chunksize] returns; partition [i] holds
    [min c (length - c * i)] rows or columns, and none once [c * i] is
    beyond the axis length. *)
Theorem uniform_split_sizes (a N : Z) r h df :
  h !! r = Some (PyDataFrame df) -> a = 0 \/ a = 1 -> 1 < N ->
  exists c parts,
    compute_chunksize MinPartitionSize (PyDataFrame df) N None (Some a)
    = Ok (Single c) /\
    split_result_of_axis_func_pandas MinPartitionSize (Some a) N r None h
    = (Ok parts, h) /\
    length parts = Z.to_nat N /\
    (forall i : nat, (i < Z.to_nat N)%nat ->
       exists part,
         parts !! i = Some part /\
         part = table_slice (Some a) (PyDataFrame df)
                  (c * Z.of_nat i) (c * Z.of_nat (S i)) /\
         table_extent (Some a) part
         = Z.max 0 (Z.min c (axis_length a df - c * Z.of_nat i))).
Proof.
  intros Hr Ha HN.
  destruct (compute_chunksize_frame MinPartitionSize df N None ltac:(lia))
    as (H0 & H1 & _).
  set (c := py_max3 1 (ceil_div (axis_length a df) N) MinPartitionSize).
  assert (compute_chunksize MinPartitionSize (PyDataFrame df) N None (Some a)
          = Ok (Single c)) as Hc.
  { destruct Ha as [-> | ->]; assumption. }
  assert (1 <= c) as Hc1 by (unfold c, py_max3; lia).
  exists c. eexists. split; [exact Hc|]. split.
  { apply (split_uniform_run (Some a) N c r h (PyDataFrame df) Hr eq_refl
             ltac:(lia) Hc). }
  split; [rewrite length_fmap, length_seq; reflexivity|].
  intros i Hi. eexists. split; [|split; [reflexivity|]].
  - rewrite list_lookup_fmap, lookup_seq_lt by assumption. reflexivity.
  - unfold table_slice, table_extent, axis_length.
    destruct Ha as [-> | ->]; cbn [axis_eq Z.eqb Pos.eqb];
      unfold row_part, col_part; cbn [df_index df_columns];
      rewrite len_py_slice by nia; f_equal; f_equal; lia.
Qed.

(** X7: in the uniform path a split count of 0 raises [ZeroDivisionError],
    and a negative split count returns an empty sequence of partitions
    without raising; the heap stays as it was. *)
Theorem uniform_split_degenerate_counts (a N : Z) r h df :
  h !! r = Some (PyDataFrame df) -> a = 0 \/ a = 1 ->
  split_result_of_axis_func_pandas MinPartitionSize (Some a) 0 r None h
  = (Raise ZeroDivisionError, h) /\
  (N < 0 ->
   split_result_of_axis_func_pandas MinPartitionSize (Some a) N r None h
   = (Ok [], h)).
Proof.
  intros Hr Ha. split.
  - unfold split_result_of_axis_func_pandas, mbind, M_bind, deref, lift.
    rewrite Hr. destruct Ha as [-> | ->]; reflexivity.
  - intros HN.
    destruct (compute_chunksize_frame_defined df N a ltac:(lia) Ha) as (c & Hc).
    rewrite (split_uniform_run (Some a) N c r h (PyDataFrame df) Hr eq_refl
               ltac:(lia) Hc).
    replace (Z.to_nat N) with 0%nat by lia. reflexivity.
Qed.
End UniformPath.

Lemma uniform_split_sizes_witness :
  exists c parts,
    compute_chunksize default_MinPartitionSize (PyDataFrame frame5) 3 None (Some 0)
    = Ok (Single c) /\
    split_result_of_axis_func_pandas default_MinPartitionSize (Some 0) 3
      1%positive None example_heap = (Ok parts, example_heap) /\
    length parts = 3%nat.
Proof.
  destruct (uniform_split_sizes default_MinPartitionSize 0 3 1%positive
              example_heap frame5)
    as (c & parts & Hc & Hrun & Hlen & _).
  - reflexivity.
  - left. reflexivity.
  - lia.
  - exists c, parts. repeat split; assumption.
Defined.

Lemma uniform_split_degenerate_counts_witness :
  split_result_of_axis_func_pandas default_MinPartitionSize (Some 0) (-2)
    1%positive None example_heap = (Ok [], example_heap).
Proof.
  apply (proj2 (uniform_split_degenerate_counts default_MinPartitionSize 0 (-2)
                  1%positive example_heap frame5 eq_refl (or_introl eq_refl))).
  lia.
Defined.

(** ** Measuring the partitions with the dimension probes *)

Lemma len_join {A : Type} (ls : list (list A)) :
  len (mjoin ls) = py_sum (len <$> ls).
Proof.
  induction ls as [|x ls IH]; [reflexivity|].
  change (mjoin (x :: ls)) with (x ++ mjoin ls).
  change (py_sum (len <$> x :: ls)) with (len x + py_sum (len <$> ls)).
  rewrite <- IH. unfold len. rewrite length_app. lia.
Qed.

Lemma sum_len_slices {A : Type} (bound : nat -> Z) (L : list A) (k : nat) :
  bound 0%nat = 0 ->
  (forall i, (i < k)%nat -> bound i <= bound (S i)) ->
  len L <= bound k ->
  py_sum ((fun i => len (py_slice (bound i) (bound (S i)) L)) <$> seq 0 k) = len L.
Proof.
  intros H0 Hmono Hend.
  pose proof (join_slices bound L k H0 Hmono) as Hjoin.
  apply (f_equal len) in Hjoin. rewrite len_join, <- list_fmap_compose in Hjoin.
  unfold compose in Hjoin. rewrite Hjoin.
  unfold len in *. rewrite take_ge by lia. reflexivity.
Qed.

(** A comprehension over mapped elements whose body never raises on them
    is a [map]. *)
Lemma comprehension_fmap_ok {A B C : Type} (f : B -> outcome C) (g : A -> B)
    (k : A -> C) (l : list A) :
  (forall i, f (g i) = Ok (k i)) -> comprehension f (g <$> l) = Ok (k <$> l).
Proof.
  intros Hf. induction l as [|i l IH]; [reflexivity|].
  cbn. rewrite Hf. cbn. cbn in IH. rewrite IH. reflexivity.
Qed.

Section MeasuredPartitions.
Context {Label Value : Type}.
Variable MinPartitionSize : Z.
Implicit Types (df : DataFrame Label Value) (o T : py_obj Label Value).
Implicit Types (h : gmap loc (py_obj Label Value)) (r ll : loc).

Lemma length_fn_pandas_frame df :
  length_fn_pandas (PyDataFrame df) = Ok (len (df_index df)).
Proof.
  cbn. unfold len.
  destruct (Z.gtb_spec (Z.of_nat (length (df_index df))) 0); f_equal; lia.
Qed.

Lemma width_fn_pandas_frame df :
  width_fn_pandas (PyDataFrame df) = Ok (len (df_columns df)).
Proof.
  cbn. unfold len.
  destruct (Z.gtb_spec (Z.of_nat (length (df_columns df))) 0); f_equal; lia.
Qed.

(** The probes on the slices of a frame at non-decreasing bounds that start
    at 0 and end at or beyond the axis length. *)
Lemma measure_slices df (a : Z) (bound : nat -> Z) (k : nat) :
  a = 0 \/ a = 1 ->
  bound 0%nat = 0 ->
  (forall i, (i < k)%nat -> bound i <= bound (S i)) ->
  axis_length a df <= bound k ->
  let parts := (fun i => table_slice (Some a) (PyDataFrame df)
                           (bound i) (bound (S i))) <$> seq 0 k in
  exists sizes,
    comprehension (probe_along a) parts = Ok sizes /\
    py_sum sizes = axis_length a df /\
    comprehension (probe_across a) parts
    = Ok (replicate (length parts) (axis_length (1 - a) df)).
Proof.
  intros Ha H0 Hmono Hend parts. subst parts.
  unfold probe_along, probe_across, axis_length in *.
  destruct Ha as [-> | ->]; cbn [Z.eqb Pos.eqb Z.sub Z.opp Z.add Z.pos_sub] in *;
    cbn [table_slice axis_eq Z.eqb Pos.eqb].
  - exists ((fun i => len (py_slice (bound i) (bound (S i)) (df_index df)))
            <$> seq 0 k).
    split; [|split].
    + apply comprehension_fmap_ok. intros i.
      exact (length_fn_pandas_frame (row_part df _ _)).
    + apply sum_len_slices; assumption.
    + rewrite (comprehension_fmap_ok _ _ (fun _ => len (df_columns df)))
        by (intros i; exact (width_fn_pandas_frame (row_part df _ _))).
      f_equal. rewrite length_fmap. apply const_fmap. reflexivity.
  - exists ((fun i => len (py_slice (bound i) (bound (S i)) (df_columns df)))
            <$> seq 0 k).
    split; [|split].
    + apply comprehension_fmap_ok. intros i.
      exact (width_fn_pandas_frame (col_part df _ _)).
    + apply sum_len_slices; assumption.
    + rewrite (comprehension_fmap_ok _ _ (fun _ => len (df_index df)))
        by (intros i; exact (length_fn_pandas_frame (col_part df _ _))).
      f_equal. rewrite length_fmap. apply const_fmap. reflexivity.
Qed.

(** X8: the dimension probes agree with the splitter.  For a data frame and
    [N >= 1] partitions of the uniform path, and for the partitions of a
    length list of non-negative entries that sum to the axis length, the
    probe along the split axis succeeds on every partition and its values
    sum to the axis length of the frame, and the probe across the axis
    returns the frame's own other dimension on every partition. *)
Theorem probes_measure_partitions (a : Z) r h df :
  wf_frame df -> h !! r = Some (PyDataFrame df) -> a = 0 \/ a = 1 ->
  (forall N, 1 <= N ->
     exists parts sizes,
       fst (split_result_of_axis_func_pandas MinPartitionSize (Some a) N r None h)
       = Ok parts /\
       comprehension (probe_along a) parts = Ok sizes /\
       py_sum sizes = axis_length a df /\
       comprehension (probe_across a) parts
       = Ok (replicate (length parts) (axis_length (1 - a) df))) /\
  (forall N ll l,
     h !! ll = Some (PyList l) ->
     Forall (fun x => 0 <= x) l -> py_sum l = axis_length a df ->
     exists parts sizes,
       fst (split_result_of_axis_func_pandas MinPartitionSize (Some a) N r (Some ll) h)
       = Ok parts /\
       comprehension (probe_along a) parts = Ok sizes /\
       py_sum sizes = axis_length a df /\
       comprehension (probe_across a) parts
       = Ok (replicate (length parts) (axis_length (1 - a) df))).
Proof.
  intros Hwf Hr Ha. split.
  - intros N HN. destruct (Z.eq_dec N 1) as [-> | HN1].
    + exists [PyDataFrame df], [axis_length a df]. split; [|split; [|split]].
      * unfold split_result_of_axis_func_pandas, mbind, M_bind, deref.
        rewrite Hr. reflexivity.
      * unfold probe_along, axis_length. cbn [comprehension].
        destruct Ha as [-> | ->]; cbn [Z.eqb Pos.eqb];
          rewrite ?length_fn_pandas_frame, ?width_fn_pandas_frame; reflexivity.
      * cbn. lia.
      * unfold probe_across, axis_length. cbn [comprehension length replicate].
        destruct Ha as [-> | ->]; cbn [Z.eqb Pos.eqb Z.sub Z.opp Z.add Z.pos_sub];
          rewrite ?length_fn_pandas_frame, ?width_fn_pandas_frame; reflexivity.
    + destruct (compute_chunksize_frame MinPartitionSize df N None ltac:(lia))
        as (H0 & H1 & _).
      set (c := py_max3 1 (ceil_div (axis_length a df) N) MinPartitionSize).
      assert (compute_chunksize MinPartitionSize (PyDataFrame df) N None (Some a)
              = Ok (Single c)) as Hc.
      { destruct Ha as [-> | ->]; assumption. }
      assert (1 <= c) as Hc1 by (unfold c, py_max3; lia).
      assert (axis_length a df <= c * N) as Hcover.
      { pose proof (ceil_div_bounds (axis_length a df) N ltac:(lia)).
        assert (ceil_div (axis_length a df) N <= c) by (unfold c, py_max3; lia).
        nia. }
      rewrite (split_uniform_run MinPartitionSize (Some a) N c r h (PyDataFrame df)
                 Hr eq_refl HN1 Hc).
      cbn [fst].
      destruct (measure_slices df a (fun i => c * Z.of_nat i) (Z.to_nat N) Ha)
        as (sizes & Hs1 & Hs2 & Hs3).
      * lia.
      * intros i _. nia.
      * rewrite Z2Nat.id by lia. exact Hcover.
      * eexists _, sizes. split; [reflexivity|]. repeat split; assumption.
  - intros N ll l Hll Hpos Hsum.
    assert (Forall int64 (prefix_sums (0 :: l))) as Hint.
    { apply prefix_sums_int64; [exact Hpos|]. rewrite Hsum.
      unfold axis_length. destruct Hwf. destruct (a =? 0); assumption. }
    rewrite (split_length_list_table MinPartitionSize (Some a) N r ll h l
               (PyDataFrame df) Hr eq_refl Hll).
    cbn [fst]. rewrite (np_cumsum_exact _ Hint).
    destruct (measure_slices df a (fun i => nth i (prefix_sums (0 :: l)) 0)
                (length l) Ha)
      as (sizes & Hs1 & Hs2 & Hs3).
    + reflexivity.
    + intros i Hi. apply (running_sums_step l 0 i Hpos Hi).
    + pose proof (running_sums_last l 0) as Hlast.
      change (nth (length l) (prefix_sums (0 :: l)) 0)
        with (nth (length l) (0 :: running_sums 0 l) 0).
      rewrite Hlast. lia.
    + eexists _, sizes. split; [reflexivity|]. repeat split; assumption.
Qed.
End MeasuredPartitions.

Lemma probes_measure_partitions_witness :
  exists parts sizes,
    fst (split_result_of_axis_func_pandas default_MinPartitionSize (Some 0) 3
           1%positive (Some 2%positive) example_heap) = Ok parts /\
    comprehension (probe_along 0) parts = Ok sizes /\
    py_sum sizes = axis_length 0 frame5 /\
    comprehension (probe_across 0) parts
    = Ok (replicate (length parts) (axis_length (1 - 0) frame5)).
Proof.
  apply (proj2 (probes_measure_partitions default_MinPartitionSize 0 1%positive
                  example_heap frame5 frame5_wf eq_refl (or_introl eq_refl))
           3 2%positive [2; 2; 1]).
  - reflexivity.
  - repeat constructor; lia.
  - reflexivity.
Defined.

(** ** Length lists that do not sum to the axis length *)

Section MismatchedLengthList.
Context {Label Value : Type}.
Variable MinPartitionSize : Z.
Implicit Types (df : DataFrame Label Value) (o T : py_obj Label Value).
Implicit Types (h : gmap loc (py_obj Label Value)) (r ll : loc).

(** Slices along an axis at non-decreasing bounds that start at 0
    concatenate to the slice from 0 to the last bound. *)
Lemma concat_slices_prefix df (a : Z) (bound : nat -> Z) (k : nat) :
  a = 0 \/ a = 1 ->
  bound 0%nat = 0 ->
  (forall i, (i < S k)%nat -> bound i <= bound (S i)) ->
  concat a ((fun i => table_slice (Some a) (PyDataFrame df)
                        (bound i) (bound (S i))) <$> seq 0 (S k))
  = as_frame (table_slice (Some a) (PyDataFrame df) 0 (bound (S k))).
Proof.
  intros Ha H0 Hmono. unfold concat.
  assert (0 <= bound (S k)) as Hlast.
  { assert (forall j, (j <= S k)%nat -> 0 <= bound j) as Hall.
    { intros j. induction j as [|j IH]; intros Hj; [lia|].
      specialize (Hmono j ltac:(lia)). specialize (IH ltac:(lia)). lia. }
    apply Hall. lia. }
  destruct Ha as [-> | ->]; cbn [Z.eqb Pos.eqb axis_eq table_slice as_frame].
  - change (fun i : nat => PyDataFrame _)
      with (PyDataFrame ∘ (fun i => row_part df (bound i) (bound (S i)))).
    rewrite list_fmap_compose, mapM_as_frame. cbn [mbind option_bind].
    cbn [seq fmap list_fmap].
    rewrite (concat_row_parts df bound 0 (seq 1 k)).
    change (0%nat :: seq 1 k) with (seq 0 (S k)).
    rewrite !join_slices by assumption.
    unfold row_part. rewrite !(py_slice_take_drop 0) by lia.
    rewrite !Z.sub_0_r. reflexivity.
  - change (fun i : nat => PyDataFrame _)
      with (PyDataFrame ∘ (fun i => col_part df (bound i) (bound (S i)))).
    rewrite list_fmap_compose, mapM_as_frame. cbn [mbind option_bind].
    cbn [seq fmap list_fmap].
    rewrite (concat_col_parts df bound 0 (seq 1 k)).
    change (0%nat :: seq 1 k) with (seq 0 (S k)).
    rewrite join_slices by assumption.
    unfold col_part. rewrite (py_slice_take_drop 0) by lia.
    rewrite Z.sub_0_r. do 2 f_equal.
    apply list_fmap_ext. intros _ row _.
    rewrite join_slices by assumption.
    rewrite (py_slice_take_drop 0) by lia. rewrite Z.sub_0_r. reflexivity.
Qed.

(** X9: a non-empty length list of non-negative entries whose sum does not
    exceed the largest [Py_ssize_t] ([2 ^ 63 - 1]) is never checked against
    the axis length.  Its partitions concatenate to the slice of the
    frame from 0 to the sum of the list: a sum beyond the axis length still
    gives back the whole frame, and a sum below it silently leaves out the
    rows or columns from the sum on. *)
Theorem length_list_keeps_prefix (a N : Z) r ll h df l :
  h !! r = Some (PyDataFrame df) -> a = 0 \/ a = 1 ->
  h !! ll = Some (PyList l) -> l <> [] ->
  Forall (fun x => 0 <= x) l -> py_sum l <= PY_SSIZE_T_MAX ->
  exists parts,
    fst (split_result_of_axis_func_pandas MinPartitionSize (Some a) N r (Some ll) h)
    = Ok parts /\
    concat a parts
    = as_frame (table_slice (Some a) (PyDataFrame df) 0 (py_sum l)) /\
    (wf_frame df -> axis_length a df <= py_sum l -> concat a parts = Some df) /\
    (py_sum l < axis_length a df -> concat a parts <> Some df).
Proof.
  intros Hr Ha Hll Hne Hpos Hmax.
  pose proof (prefix_sums_int64 l Hpos Hmax) as Hint.
  rewrite (split_length_list_table MinPartitionSize (Some a) N r ll h l
             (PyDataFrame df) Hr eq_refl Hll).
  cbn [fst]. rewrite (np_cumsum_exact _ Hint).
  eexists. split; [reflexivity|].
  destruct l as [|x l']; [congruence|].
  change (length (x :: l')) with (S (length l')).
  set (bound := fun i => nth i (prefix_sums (0 :: x :: l')) 0).
  assert (forall i, (i < S (length l'))%nat -> bound i <= bound (S i)) as Hmono.
  { intros i Hi. apply (running_sums_step (x :: l') 0 i Hpos). cbn [length]. lia. }
  assert (bound (S (length l')) = py_sum (x :: l')) as Hlast.
  { pose proof (running_sums_last (x :: l') 0) as Hl.
    change (bound (S (length l')))
      with (nth (length (x :: l')) (0 :: running_sums 0 (x :: l')) 0).
    rewrite Hl. lia. }
  assert (0 <= py_sum (x :: l')) as Hsum0.
  { pose proof (running_sums_range (x :: l') 0 Hpos) as Hrange.
    inversion Hrange; subst. clear -Hpos.
    induction Hpos as [|y ys Hy _ IHs]; [cbn; lia|].
    change (py_sum (y :: ys)) with (y + py_sum ys). lia. }
  pose proof (concat_slices_prefix df a bound (length l') Ha eq_refl Hmono) as Hcat.
  rewrite Hlast in Hcat.
  split; [exact Hcat|]. split.
  - intros Hwf Hlen.
    apply (concat_slices_round_trip df a bound (length l') Hwf Ha eq_refl Hmono).
    rewrite Hlast. exact Hlen.
  - intros Hshort Hwhole.
    pose proof (eq_trans (eq_sym Hcat) Hwhole) as Heq. clear Hcat Hwhole.
    unfold axis_length in Hshort.
    destruct Ha as [-> | ->]; cbn [Z.eqb Pos.eqb axis_eq table_slice as_frame] in *;
      injection Heq as Heq.
    + apply (f_equal (fun d => len (df_index d))) in Heq.
      cbn [row_part df_index] in Heq.
      change (py_sum (x :: l')) with (x + py_sum l') in *.
      rewrite len_py_slice in Heq by lia. lia.
    + apply (f_equal (fun d => len (df_columns d))) in Heq.
      cbn [col_part df_columns] in Heq.
      change (py_sum (x :: l')) with (x + py_sum l') in *.
      rewrite len_py_slice in Heq by lia. lia.
Qed.
End MismatchedLengthList.

Lemma length_list_keeps_prefix_witness :
  exists parts,
    fst (split_result_of_axis_func_pandas default_MinPartitionSize (Some 1) 3
           1%positive (Some 2%positive) example_heap) = Ok parts /\
    concat 1 parts = Some frame5.
Proof.
  destruct (length_list_keeps_prefix default_MinPartitionSize 1 3 1%positive
              2%positive example_heap frame5 [2; 2; 1])
    as (parts & Hrun & _ & Hwhole & _).
  - reflexivity.
  - right. reflexivity.
  - reflexivity.
  - discriminate.
  - repeat constructor; lia.
  - unfold PY_SSIZE_T_MAX. cbn. lia.
  - exists parts. split; [exact Hrun|].
    apply Hwhole; [exact frame5_wf|]. cbn. unfold len. cbn. lia.
Defined.

(** ** Series: the paths that work *)

Section SeriesRoundTrip.
Context {Label Value : Type}.
Variable MinPartitionSize : Z.
Implicit Types (s : Series Label Value) (o T : py_obj Label Value).
Implicit Types (h : gmap loc (py_obj Label Value)) (r ll : loc).

Lemma mapM_as_series (ss : list (Series Label Value)) :
  mapM as_series (PySeries <$> ss) = Some ss.
Proof. induction ss as [|x ss IH]; cbn; [|rewrite IH]; reflexivity. Qed.

(** Row slices of a series at non-decreasing bounds that start at 0 and end
    at or beyond its length concatenate to the series, whatever the axis
    argument is. *)
Lemma concat_series_slices s (axis : option Z) (bound : nat -> Z) (k : nat) :
  wf_series s ->
  bound 0%nat = 0 ->
  (forall i, (i < S k)%nat -> bound i <= bound (S i)) ->
  len (s_index s) <= bound (S k) ->
  concat_series ((fun i => table_slice axis (PySeries s) (bound i) (bound (S i)))
                 <$> seq 0 (S k))
  = Some s.
Proof.
  intros [Hvalues _] H0 Hmono Hend. unfold concat_series.
  destruct s as [idx vals]. cbn [s_index s_values table_slice] in *.
  change (fun i : nat => PySeries _)
    with (PySeries ∘ (fun i => {| s_index := py_slice (bound i) (bound (S i)) idx;
                                  s_values := py_slice (bound i) (bound (S i)) vals |})).
  rewrite list_fmap_compose, mapM_as_series. cbn [mbind option_bind].
  rewrite <- !list_fmap_compose. unfold compose. cbn [s_index s_values].
  change (seq 0 (S k)) with (0%nat :: seq 1 k) at 1.
  cbn [fmap list_fmap]. cbv beta iota.
  rewrite !join_slices by assumption.
  unfold len in Hend. rewrite !take_ge by lia. reflexivity.
Qed.

(** X10: a series is split along its rows and reassembles.  The uniform
    path with axis 0 and [N >= 1], and the length-list path with any axis
    argument and a non-empty list of non-negative entries that sum to the
    length of the series, return partitions that concatenate in order to
    the series. *)
Theorem series_round_trip r h s :
  wf_series s -> h !! r = Some (PySeries s) ->
  (forall N, 1 <= N ->
     exists parts,
       fst (split_result_of_axis_func_pandas MinPartitionSize (Some 0) N r None h)
       = Ok parts /\
       concat_series parts = Some s) /\
  (forall axis N ll l,
     h !! ll = Some (PyList l) -> l <> [] ->
     Forall (fun x => 0 <= x) l -> py_sum l = len (s_index s) ->
     exists parts,
       fst (split_result_of_axis_func_pandas MinPartitionSize axis N r (Some ll) h)
       = Ok parts /\
       concat_series parts = Some s).
Proof.
  intros Hwf Hr. split.
  - intros N HN. destruct (Z.eq_dec N 1) as [-> | HN1].
    + exists [PySeries s]. split.
      * unfold split_result_of_axis_func_pandas, mbind, M_bind, deref.
        rewrite Hr. reflexivity.
      * unfold concat_series. cbn. rewrite !app_nil_r. destruct s; reflexivity.
    + set (c := py_max3 1 (ceil_div (len (s_index s)) N) MinPartitionSize).
      assert (compute_chunksize MinPartitionSize (PySeries s) N None (Some 0)
              = Ok (Single c)) as Hc.
      { unfold compute_chunksize. cbn.
        rewrite get_default_chunksize_ceil by lia. reflexivity. }
      assert (1 <= c) as Hc1 by (unfold c, py_max3; lia).
      assert (len (s_index s) <= c * N) as Hcover.
      { pose proof (ceil_div_bounds (len (s_index s)) N ltac:(lia)).
        assert (ceil_div (len (s_index s)) N <= c) by (unfold c, py_max3; lia).
        nia. }
      rewrite (split_uniform_run MinPartitionSize (Some 0) N c r h (PySeries s)
                 Hr eq_refl HN1 Hc).
      eexists. split; [reflexivity|].
      destruct (Z.to_nat N) as [|k] eqn:Hk; [lia|].
      apply (concat_series_slices s (Some 0) (fun i => c * Z.of_nat i) k Hwf).
      * lia.
      * intros i _. nia.
      * replace (Z.of_nat (S k)) with N by lia. exact Hcover.
  - intros axis N ll l Hll Hne Hpos Hsum.
    assert (Forall int64 (prefix_sums (0 :: l))) as Hint.
    { apply prefix_sums_int64; [exact Hpos|]. rewrite Hsum. apply Hwf. }
    rewrite (split_length_list_table MinPartitionSize axis N r ll h l
               (PySeries s) Hr eq_refl Hll).
    cbn [fst]. rewrite (np_cumsum_exact _ Hint).
    eexists. split; [reflexivity|].
    destruct l as [|x l']; [congruence|].
    change (length (x :: l')) with (S (length l')).
    apply (concat_series_slices s axis
             (fun i => nth i (prefix_sums (0 :: x :: l')) 0) (length l') Hwf).
    + reflexivity.
    + intros i Hi.
      apply (running_sums_step (x :: l') 0 i Hpos). cbn [length]. lia.
    + pose proof (running_sums_last (x :: l') 0) as Hlast.
      change (nth (S (length l')) (prefix_sums (0 :: x :: l')) 0)
        with (nth (length (x :: l')) (0 :: running_sums 0 (x :: l')) 0).
      rewrite Hlast. lia.
Qed.
End SeriesRoundTrip.

Lemma series3_wf : wf_series series3.
Proof. split; [reflexivity|]. unfold len, PY_SSIZE_T_MAX. cbn. lia. Qed.

Lemma series_round_trip_witness :
  exists parts,
    fst (split_result_of_axis_func_pandas default_MinPartitionSize (Some 0) 2
           3%positive None example_heap) = Ok parts /\
    concat_series parts = Some series3.
Proof.
  apply (proj1 (series_round_trip default_MinPartitionSize 3%positive example_heap
                  series3 series3_wf eq_refl)).
  lia.
Defined.

(** ** Frames smaller than the minimum partition size *)

Section SmallFrames.
Context {Label Value : Type}.
Variable MinPartitionSize : Z.
Implicit Types (df : DataFrame Label Value) (o T : py_obj Label Value).
Implicit Types (h : gmap loc (py_obj Label Value)) (r ll : loc).

Lemma py_slice_whole {A : Type} (b : Z) (L : list A) :
  len L <= b -> py_slice 0 b L = L.
Proof.
  intros Hb. unfold len in Hb.
  rewrite py_slice_take_drop by lia. rewrite Z.sub_0_r.
  change (Z.to_nat 0) with 0%nat. rewrite drop_0. apply take_ge. lia.
Qed.

(** A slice from 0 to a bound at or beyond the axis length is the frame. *)
Lemma table_slice_whole df (a b : Z) :
  wf_frame df -> a = 0 \/ a = 1 -> axis_length a df <= b ->
  table_slice (Some a) (PyDataFrame df) 0 b = PyDataFrame df.
Proof.
  intros [Hrows Hcols _ _] Ha Hb. destruct df as [idx cols data].
  unfold axis_length in Hb. cbn [df_index df_columns df_data] in *.
  destruct Ha as [-> | ->]; cbn [Z.eqb Pos.eqb axis_eq table_slice] in *;
    unfold row_part, col_part; cbn [df_index df_columns df_data]; do 2 f_equal.
  - apply py_slice_whole, Hb.
  - apply py_slice_whole. unfold len in *. lia.
  - apply py_slice_whole, Hb.
  - rewrite <- (list_fmap_id data) at 2.
    apply Forall_fmap_ext. eapply Forall_impl; [exact Hcols|].
    cbn beta. intros row Hrow. unfold id.
    apply py_slice_whole. unfold len in *. lia.
Qed.

(** X11: a data frame whose split axis is no longer than [MinPartitionSize]
    is not cut.  For every split count above 1 the uniform path returns the
    frame itself as the first partition, followed by partitions that are
    empty along the split axis. *)
Theorem small_frame_is_not_cut (a N : Z) r h df :
  wf_frame df -> h !! r = Some (PyDataFrame df) -> a = 0 \/ a = 1 ->
  1 < N -> axis_length a df <= MinPartitionSize ->
  exists parts,
    split_result_of_axis_func_pandas MinPartitionSize (Some a) N r None h
    = (Ok parts, h) /\
    length parts = Z.to_nat N /\
    parts !! 0%nat = Some (PyDataFrame df) /\
    (forall i : nat, (1 <= i < Z.to_nat N)%nat ->
       exists part, parts !! i = Some part /\ table_extent (Some a) part = 0).
Proof.
  intros Hwf Hr Ha HN Hsmall.
  destruct (compute_chunksize_frame MinPartitionSize df N None ltac:(lia))
    as (H0 & H1 & _).
  set (c := py_max3 1 (ceil_div (axis_length a df) N) MinPartitionSize).
  assert (compute_chunksize MinPartitionSize (PyDataFrame df) N None (Some a)
          = Ok (Single c)) as Hc.
  { destruct Ha as [-> | ->]; assumption. }
  assert (1 <= c /\ axis_length a df <= c) as [Hc1 Hclen]
    by (unfold c, py_max3; lia).
  rewrite (split_uniform_run MinPartitionSize (Some a) N c r h (PyDataFrame df)
             Hr eq_refl ltac:(lia) Hc).
  eexists. split; [reflexivity|]. split; [|split].
  - rewrite length_fmap, length_seq. reflexivity.
  - rewrite list_lookup_fmap, lookup_seq_lt by lia. cbn [fmap option_fmap option_map].
    f_equal. change (Z.of_nat 0) with 0. rewrite Z.mul_0_r.
    apply table_slice_whole; [assumption..|]. lia.
  - intros i Hi. eexists. split.
    + rewrite list_lookup_fmap, lookup_seq_lt by lia. reflexivity.
    + unfold table_slice, table_extent, axis_length in *.
      destruct Ha as [-> | ->]; cbn [axis_eq Z.eqb Pos.eqb] in *;
        unfold row_part, col_part; cbn [df_index df_columns];
        rewrite len_py_slice by nia; nia.
Qed.
End SmallFrames.

Lemma small_frame_is_not_cut_witness :
  exists parts,
    split_result_of_axis_func_pandas default_MinPartitionSize (Some 0) 3
      1%positive None example_heap = (Ok parts, example_heap) /\
    parts !! 0%nat = Some (PyDataFrame frame5).
Proof.
  destruct (small_frame_is_not_cut default_MinPartitionSize 0 3 1%positive
              example_heap frame5 frame5_wf eq_refl (or_introl eq_refl))
    as (parts & Hrun & _ & Hfirst & _).
  - lia.
  - unfold axis_length, len, default_MinPartitionSize. cbn. lia.
  - exists parts. split; assumption.
Defined.
